(** * claude.py: MS SQL Server to Snowflake procedure converter

    A shallow embedding of [src/claude.py] and the properties of its
    convert / register / retry / package workflow.

    - Python [str] values are lists of Unicode code points.
    - The remote services (the Bedrock model, the Snowflake session) are an
      environment of oracles; every interaction with them, and every line
      the program prints or widget it renders, is appended to a trace.
    - Python exceptions, [try]/[except]/[finally] and local variables that
      may still be unbound are modelled by a small state-and-exception
      monad over (frame of locals, trace). *)

From Stdlib Require Import List ZArith NArith Bool Lia Permutation.
From Stdlib Require String Ascii.
Import ListNotations String.StringSyntax.

Local Open Scope Z_scope.
Delimit Scope string_scope with string.

(* ================================================================== *)
(** ** Python strings *)

Module PyStr.

(** A Python [str]: a sequence of code points. *)
Definition str : Type := list N.

(** An ASCII literal of the source, as a [str]. *)
Definition py (s : String.string) : str :=
  map Ascii.N_of_ascii (String.list_ascii_of_string s).


Definition len (s : str) : Z := Z.of_nat (length s).

(** [s.startswith(p)] at offset 0. *)
Fixpoint startswith (s p : str) {struct p} : bool :=
  match p, s with
  | [], _ => true
  | _ :: _, [] => false
  | a :: p', b :: s' => (a =? b)%N && startswith s' p'
  end.

(** Scan for [sub] in [s], where [s] is the part of the subject that begins
    at absolute index [i]; [-1] when there is no occurrence. *)
Fixpoint find_at (s sub : str) (i : Z) : Z :=
  if startswith s sub then i
  else match s with
       | [] => -1
       | _ :: t => find_at t sub (i + 1)
       end.

(** [s.find(sub, start)]: a negative [start] counts from the end and is
    clipped at 0; a [start] beyond the end finds nothing. *)
Definition find (s sub : str) (start : Z) : Z :=
  let n := len s in
  let st := if start <? 0 then Z.max 0 (start + n) else start in
  if n <? st then -1
  else find_at (skipn (Z.to_nat st) s) sub st.

(** Index normalisation of a slice bound. *)
Definition slice_index (n i : Z) : Z :=
  if i <? 0 then Z.max 0 (i + n) else Z.min i n.

(** [s[i:j]]. *)
Definition slice (s : str) (i j : Z) : str :=
  let a := slice_index (len s) i in
  let b := slice_index (len s) j in
  firstn (Z.to_nat (b - a)) (skipn (Z.to_nat a) s).

(** [c.isspace()] for a single code point (CPython's
    [_PyUnicode_IsWhitespace]). *)
Definition isspace (c : N) : bool :=
  ((9 <=? c) && (c <=? 13) || (28 <=? c) && (c <=? 32)
   || (c =? 133) || (c =? 160) || (c =? 5760)
   || (8192 <=? c) && (c <=? 8202)
   || (c =? 8232) || (c =? 8233) || (c =? 8239) || (c =? 8287)
   || (c =? 12288))%N.

Fixpoint lstrip (s : str) : str :=
  match s with
  | c :: t => if isspace c then lstrip t else s
  | [] => []
  end.

Definition rstrip (s : str) : str := rev (lstrip (rev s)).

(** [s.strip()]. *)
Definition strip (s : str) : str := rstrip (lstrip s).

Definition nonempty (s : str) : bool :=
  match s with [] => false | _ :: _ => true end.

(** Truthiness of a value that is either [None] or a [str]. *)
Definition truthy (o : option str) : bool :=
  match o with Some s => nonempty s | None => false end.

(** [if o: yes(o) else: no]. *)
Definition if_truthy {A : Type} (o : option str) (yes : str -> A) (no : A) : A :=
  match o with
  | Some s => if nonempty s then yes s else no
  | None => no
  end.

(** [posixpath.basename]: what follows the last slash. *)
Fixpoint posix_basename_aux (p acc : str) : str :=
  match p with
  | [] => acc
  | c :: t => if (c =? 47)%N then posix_basename_aux t [] else posix_basename_aux t (acc ++ [c])
  end.

Definition posix_basename (p : str) : str := posix_basename_aux p [].

End PyStr.
Import PyStr.

(* ================================================================== *)
(** ** The Response Extractor (claude.py lines 45-52 and 97-104) *)

Definition fence_sql : str := py "```sql"%string.
Definition fence : str := py "```"%string.

(** The block that both [convert_procedure] and [procedure_error_rtry] run
    on the reply text. *)
Definition extract_sql_block (response_text : str) : option str :=
  let start_index := find response_text fence_sql 0 in
  let end_index := find response_text fence (start_index + 6) in
  if negb (start_index =? -1) && negb (end_index =? -1) then
    let sql_code_block := strip (slice response_text (start_index + 6) end_index) in
    Some sql_code_block
  else
    None.

(** *** What the spec says of the extractor *)

(** [sub] occurs in [s] right after the prefix [a], and nowhere earlier. *)
Definition first_at (sub s a : str) : Prop :=
  (exists b, s = a ++ sub ++ b) /\
  (forall a' b', s = a' ++ sub ++ b' -> (length a <= length a')%nat).

Definition occurs (sub s : str) : Prop :=
  exists a b, s = a ++ sub ++ b.

(** Whitespace: the code points with the Unicode property White_Space,
    and the four information separators U+001C to U+001F. *)
Definition whitespace_code_points : list N :=
  [9; 10; 11; 12; 13; 28; 29; 30; 31; 32; 133; 160; 5760;
   8192; 8193; 8194; 8195; 8196; 8197; 8198; 8199; 8200; 8201; 8202;
   8232; 8233; 8239; 8287; 12288]%N.

Definition Whitespace (c : N) : Prop := In c whitespace_code_points.

(** [body] is [s] trimmed: [s] is [body] between two runs of whitespace,
    and [body] itself neither begins nor ends with whitespace. *)
Definition Trimmed (s body : str) : Prop :=
  (exists a b, s = a ++ body ++ b /\ Forall Whitespace a /\ Forall Whitespace b)
  /\ (forall c t, body = c :: t -> ~ Whitespace c)
  /\ (forall t c, body = t ++ [c] -> ~ Whitespace c).

(** The contract of section 4.1, word for word: the trimmed text strictly
    between the first opening marker and the next closing marker; absent
    when there is no opening marker, or no closing marker after it. *)
Inductive ResponseExtractor (text : str) : option str -> Prop :=
| RE_block (pre inner post body : str) :
    text = pre ++ fence_sql ++ inner ++ fence ++ post ->
    first_at fence_sql text pre ->
    first_at fence (inner ++ fence ++ post) inner ->
    Trimmed inner body ->
    ResponseExtractor text (Some body)
| RE_no_opening :
    ~ occurs fence_sql text ->
    ResponseExtractor text None
| RE_unterminated (pre rest : str) :
    text = pre ++ fence_sql ++ rest ->
    first_at fence_sql text pre ->
    ~ occurs fence rest ->
    ResponseExtractor text None.
(* ================================================================== *)
(** ** Exceptions, external services and the trace *)

(** The exception classes the program can meet.  [ProgrammingError] is
    [snowflake.connector.errors.ProgrammingError], [ClientError] is
    botocore's; [OtherException] stands for every other subclass of
    [Exception] (a dropped connection, a [KeyError] on a malformed reply);
    [NotAnException] for what derives from [BaseException] only
    ([KeyboardInterrupt], [SystemExit]). *)
Inductive exn : Type :=
| ProgrammingError (msg : str)
| ClientError (msg : str)
| UnicodeDecodeError (msg : str)
| UnboundLocalError (var : str)
| OtherException (msg : str)
| NotAnException (msg : str).

Definition is_ProgrammingError (e : exn) : bool :=
  match e with ProgrammingError _ => true | _ => false end.

Definition is_ClientError (e : exn) : bool :=
  match e with ClientError _ => true | _ => false end.

Definition is_Exception (e : exn) : bool :=
  match e with NotAnException _ => false | _ => true end.

(** [str(e)]. *)
Definition str_exn (e : exn) : str :=
  match e with
  | ProgrammingError m | ClientError m | UnicodeDecodeError m
  | OtherException m | NotAnException m => m
  | UnboundLocalError v =>
      py "cannot access local variable '"%string ++ v
      ++ py "' where it is not associated with a value"%string
  end.

Inductive Result (A : Type) : Type :=
| Ok (a : A)
| Raise (e : exn).

Arguments Ok {A} a.
Arguments Raise {A} e.

(** Handles are numbered in order of acquisition. *)
Definition Client : Type := nat.
Definition Connection : Type := nat.
Definition Cursor : Type := nat.

(** One message of a conversation: [{"role": ..., "content": [{"text": ...}]}]. *)
Record Message : Type := {
  role : str;
  content : list str
}.

(** The keyword arguments of [client.converse]. *)
Record Request : Type := {
  modelId : str;
  messages : list Message;
  maxTokens : Z;
  stopSequences : list str;
  temperature : Z;
  topP : Z;
  top_k : Z
}.

(** An uploaded file: its [name], and what [read().decode("utf-8")] gives
    (the text, or the decoding error). *)
Record UploadedFile : Type := {
  name : str;
  read_decode : Result str
}.

(** An archive being written: the pairs (file name, data) that
    [writestr] was given and accepted, in order. *)
Definition Zip : Type := list (str * str).

(** What the Streamlit calls render. *)
Inductive Widget : Type :=
| StTitle (body : str)
| StFileUploader (label : str)
| StButton (label : str)
| StSuccess (body : str)
| StSubheader (body : str)
| StWrite (items : list str)
| StDownloadButton (label : str) (data : Zip) (file_name mime : str)
| StError (body : str)
| StWarning (body : str).

(** Everything the program does to the outside, with what came back. *)
Inductive Event : Type :=
| EvClient (r : option exn)
| EvConverse (c : Client) (req : Request) (r : Result str)
| EvPrint (line : str)
| EvConnect (r : option exn)
| EvCursor (conn : Connection) (r : option exn)
| EvExecute (c : Cursor) (stmt : str) (r : option exn)
| EvCursorClose (c : Cursor)
| EvConnClose (conn : Connection)
| EvSt (w : Widget).

Definition Trace : Type := list Event.

Definition is_EvClient (e : Event) : bool :=
  match e with EvClient _ => true | _ => false end.
Definition is_EvConverse (e : Event) : bool :=
  match e with EvConverse _ _ _ => true | _ => false end.
Definition is_EvConnect (e : Event) : bool :=
  match e with EvConnect _ => true | _ => false end.
Definition is_EvCursor (e : Event) : bool :=
  match e with EvCursor _ _ => true | _ => false end.
Definition is_EvExecute (e : Event) : bool :=
  match e with EvExecute _ _ _ => true | _ => false end.
Definition is_EvCursorClose (e : Event) : bool :=
  match e with EvCursorClose _ => true | _ => false end.
Definition is_EvConnClose (e : Event) : bool :=
  match e with EvConnClose _ => true | _ => false end.
Definition is_EvSt (e : Event) : bool :=
  match e with EvSt _ => true | _ => false end.

(** How many events of a kind a trace holds. *)
Definition count (p : Event -> bool) (w : Trace) : nat :=
  length (filter p w).

(** The services.  Each oracle answers the k-th call of its kind (counted
    from 0 on the trace), given the call's argument: any deterministic
    behaviour of the model endpoint and of the database in one run is such
    a family.  [None] is a call that returns, [Some e] one that raises.
    [converse] stands for the call together with the reading of
    [response["output"]["message"]["content"][0]["text"]], both inside the
    same [try].  [zipfile_writestr] tells what the runtime's
    [ZipFile.writestr] does with an entry, given its name and its data:
    it writes it ([None]) or raises (CPython up to 3.11 raises
    [IndexError] on a name that is empty once cut at its first NUL). *)
Record Env : Type := {
  boto3_client : nat -> option exn;
  converse : nat -> Request -> Result str;
  snowflake_connect : nat -> option exn;
  connection_cursor : nat -> Connection -> option exn;
  cursor_execute : nat -> str -> option exn;
  os_path_basename : str -> str;
  zipfile_writestr : str -> str -> option exn
}.

(* ================================================================== *)
(** ** Computations: a frame of locals, the trace, and exceptions *)

(** A computation runs in a frame [L] of local variables, extends the
    trace, and either returns or raises. *)
Definition M (L A : Type) : Type := L -> Trace -> Result A * L * Trace.

Definition ret {L A : Type} (a : A) : M L A :=
  fun l w => (Ok a, l, w).

Definition bind {L A B : Type} (m : M L A) (k : A -> M L B) : M L B :=
  fun l w =>
    match m l w with
    | (Ok a, l1, w1) => k a l1 w1
    | (Raise e, l1, w1) => (Raise e, l1, w1)
    end.

Declare Scope py_scope.
Delimit Scope py_scope with py.
Notation "x <- m ;; k" := (bind m (fun x => k))
  (at level 61, m at next level, right associativity) : py_scope.
Notation "m ;; k" := (bind m (fun _ => k))
  (at level 61, right associativity) : py_scope.
Local Open Scope py_scope.

(** [try: body except <classes> as e: handler(e)]. *)
Definition try_except {L A : Type} (body : M L A) (classes : exn -> bool)
    (handler : exn -> M L A) : M L A :=
  fun l w =>
    match body l w with
    | (Raise e, l1, w1) => if classes e then handler e l1 w1 else (Raise e, l1, w1)
    | done => done
    end.

(** [try: body finally: fin].  The [finally] block runs on every exit of
    the body, also on [return]; if it raises, its exception replaces the
    body's outcome. *)
Definition try_finally {L A : Type} (body : M L A) (fin : M L unit) : M L A :=
  fun l w =>
    match body l w with
    | (r, l1, w1) =>
        match fin l1 w1 with
        | (Ok _, l2, w2) => (r, l2, w2)
        | (Raise e, l2, w2) => (Raise e, l2, w2)
        end
    end.

(** A call: the callee runs in a frame of its own, which is dropped when
    it returns or raises. *)
Definition call {L L' A : Type} (fresh : L') (m : M L' A) : M L A :=
  fun l w =>
    match m fresh w with
    | (r, _, w1) => (r, l, w1)
    end.

(** [for x in xs: body(x)].  The list returned collects what each
    iteration hands back; the loop stops at the first exception. *)
Fixpoint for_each {L A B : Type} (xs : list A) (body : A -> M L B) : M L (list B) :=
  match xs with
  | [] => ret []
  | x :: rest =>
      b <- body x ;;
      bs <- for_each rest body ;;
      ret (b :: bs)
  end.

(** Reading a local variable that may still be unbound. *)
Definition read_local {L A : Type} (get : L -> option A) (var : str) : M L A :=
  fun l w =>
    match get l with
    | Some v => (Ok v, l, w)
    | None => (Raise (UnboundLocalError var), l, w)
    end.

Definition get_local {L A : Type} (get : L -> A) : M L A :=
  fun l w => (Ok (get l), l, w).

Definition assign {L : Type} (set : L -> L) : M L unit :=
  fun l w => (Ok tt, set l, w).

(** A step without effect that returns or raises. *)
Definition lift_result {L A : Type} (r : Result A) : M L A :=
  fun l w => (r, l, w).

(** An effect that cannot fail. *)
Definition emit {L : Type} (e : Event) : M L unit :=
  fun l w => (Ok tt, l, w ++ [e]).

(** An effect that is logged and then returns or raises. *)
Definition attempt {L : Type} (r : option exn) (e : Event) : M L unit :=
  fun l w =>
    (match r with None => Ok tt | Some x => Raise x end, l, w ++ [e]).

Definition print {L : Type} (line : str) : M L unit := emit (EvPrint line).
Definition st {L : Type} (w : Widget) : M L unit := emit (EvSt w).
(* ================================================================== *)
(** ** The program *)

Definition nl : str := [10%N].

Definition model_id : str := py "anthropic.claude-3-5-sonnet-20240620-v1:0"%string.

(** The f-string of [convert_procedure] (lines 17-27). *)
Definition convert_prompt (sql_code : str) : str :=
  py "Human: You are a highly skilled SQL and Snowflake expert. Your task is to convert an MS SQL Server stored procedure into a Snowflake-compatible SQL stored procedure using SQL language for procedure conversion. Don't use JavaScript. Write high-quality Snowflake SQL code for the conversion."%string ++ nl
  ++ nl
  ++ py "    Ensure the conversion handles all necessary syntax differences between MS SQL Server and Snowflake. Review your output thoroughly to confirm there are no syntax errors or functional discrepancies."%string ++ nl
  ++ py "    "%string ++ nl
  ++ py "    Here is the MS SQL Server stored procedure code:"%string ++ nl
  ++ py "    <task>"%string ++ nl
  ++ py "    "%string ++ sql_code ++ nl
  ++ py "    </task>"%string ++ nl
  ++ py "    "%string ++ nl
  ++ py "    Assistant:"%string ++ nl
  ++ py "    "%string.

(** The f-string of [procedure_error_rtry] (lines 65-79). *)
Definition repair_prompt (sql_code error : str) : str :=
  py "Human: You are a highly skilled SQL and Snowflake expert. Your task is to resolve an issue with a Snowflake stored procedure."%string ++ nl
  ++ py "    You will be provided with a Snowflake stored procedure and its respective error. Try resolving the code issue based on the error message."%string ++ nl
  ++ nl
  ++ py "    Review your output thoroughly to confirm there are no syntax errors or functional discrepancies."%string ++ nl
  ++ py "    "%string ++ nl
  ++ py "    Here is the Snowflake stored procedure code:"%string ++ nl
  ++ py "    <task>"%string ++ nl
  ++ py "    "%string ++ sql_code ++ nl
  ++ py "    </task>"%string ++ nl
  ++ py "    <error>"%string ++ nl
  ++ py "    "%string ++ error ++ nl
  ++ py "    </error>"%string ++ nl
  ++ py "    "%string ++ nl
  ++ py "    Assistant:"%string ++ nl
  ++ py "    "%string.

(** The request both requesters send: one user turn and the fixed
    generation parameters. *)
Definition converse_request (user_message : str) : Request :=
  let conversation :=
    [ {| role := py "user"%string; content := [user_message] |} ] in
  {| modelId := model_id;
     messages := conversation;
     maxTokens := 2048;
     stopSequences := [nl ++ nl ++ py "Human:"%string];
     temperature := 0;
     topP := 1;
     top_k := 250 |}.

(** The line printed when the model cannot be invoked. *)
Definition invoke_error_line (e : exn) : str :=
  py "ERROR: Can't invoke '"%string ++ model_id
  ++ py "'. Reason: "%string ++ str_exn e.

(** The name under which [ZipInfo] stores an entry: the name it is given,
    cut at its first NUL. *)
Fixpoint zipinfo_filename (file_name : str) : str :=
  match file_name with
  | [] => []
  | c :: rest => if (c =? 0)%N then [] else c :: zipinfo_filename rest
  end.


(** [ZipFile.writestr] of CPython 3.11: [zinfo.filename[-1]] raises on a
    name that is empty once cut at its first NUL. *)
Definition writestr_cpython311 (file_name data : str) : option exn :=
  match zipinfo_filename file_name with
  | [] => Some (OtherException (py "string index out of range"%string))
  | _ :: _ => None
  end.

(** The locals of [main]. *)
Record MainLocals : Type := {
  converted_files : list (str * str);
  created_successfully : list str;
  not_created_files : list str;
  snowflake_connection : option Connection
}.

Definition main_entry : MainLocals :=
  {| converted_files := []; created_successfully := [];
     not_created_files := []; snowflake_connection := None |}.

Definition set_converted_files (v : list (str * str)) (l : MainLocals) : MainLocals :=
  {| converted_files := v;
     created_successfully := created_successfully l;
     not_created_files := not_created_files l;
     snowflake_connection := snowflake_connection l |}.

Definition set_created_successfully (v : list str) (l : MainLocals) : MainLocals :=
  {| converted_files := converted_files l;
     created_successfully := v;
     not_created_files := not_created_files l;
     snowflake_connection := snowflake_connection l |}.

Definition set_not_created_files (v : list str) (l : MainLocals) : MainLocals :=
  {| converted_files := converted_files l;
     created_successfully := created_successfully l;
     not_created_files := v;
     snowflake_connection := snowflake_connection l |}.

Definition set_snowflake_connection (v : Connection) (l : MainLocals) : MainLocals :=
  {| converted_files := converted_files l;
     created_successfully := created_successfully l;
     not_created_files := not_created_files l;
     snowflake_connection := Some v |}.

(** [xs.append(x)] on each of the three lists. *)
Definition converted_files_append (x : str * str) : M MainLocals unit :=
  assign (fun l => set_converted_files (converted_files l ++ [x]) l).
Definition created_successfully_append (x : str) : M MainLocals unit :=
  assign (fun l => set_created_successfully (created_successfully l ++ [x]) l).
Definition not_created_files_append (x : str) : M MainLocals unit :=
  assign (fun l => set_not_created_files (not_created_files l ++ [x]) l).

(** What one iteration of the loop of [main] leaves in [converted_code],
    and the verdict of the Registration Attempter when it was called. *)
Record Iteration : Type := {
  converted_code : option str;
  registered : option bool
}.

Section Program.

Variable env : Env.

(** *** The service calls *)

(** [boto3.client("bedrock-runtime", region_name="us-east-1")]. *)
Definition bedrock_client {L : Type} : M L Client :=
  fun l w =>
    let k := count is_EvClient w in
    let r := boto3_client env k in
    (match r with None => Ok k | Some e => Raise e end, l, w ++ [EvClient r]).

(** [client.converse(...)] followed by the reading of the reply's text. *)
Definition client_converse {L : Type} (client : Client) (req : Request) : M L str :=
  fun l w =>
    let r := converse env (count is_EvConverse w) req in
    (r, l, w ++ [EvConverse client req r]).

(** [snowflake.connector.connect(...)]; the keyword arguments are fixed
    literals of the source. *)
Definition snowflake_connector_connect {L : Type} : M L Connection :=
  fun l w =>
    let k := count is_EvConnect w in
    let r := snowflake_connect env k in
    (match r with None => Ok k | Some e => Raise e end, l, w ++ [EvConnect r]).

(** [connection.cursor()]. *)
Definition cursor_of {L : Type} (connection : Connection) : M L Cursor :=
  fun l w =>
    let k := count is_EvCursor w in
    let r := connection_cursor env k connection in
    (match r with None => Ok k | Some e => Raise e end, l, w ++ [EvCursor connection r]).

(** [cursor.execute(stmt)]. *)
Definition execute {L : Type} (cursor : Cursor) (stmt : str) : M L unit :=
  fun l w =>
    let r := cursor_execute env (count is_EvExecute w) stmt in
    attempt r (EvExecute cursor stmt r) l w.

(** [cursor.close()]. *)
Definition cursor_close {L : Type} (cursor : Cursor) : M L unit :=
  emit (EvCursorClose cursor).

(** [connection.close()]. *)
Definition connection_close {L : Type} (connection : Connection) : M L unit :=
  emit (EvConnClose connection).

(** [zip_file.writestr(file_name, converted_code)], on the archive held
    by the frame: the entry is appended, or the call raises and the
    archive is left as it was. *)
Definition writestr (file_name converted_code : str) : M Zip unit :=
  fun zip_file w =>
    match zipfile_writestr env file_name converted_code with
    | Some e => (Raise e, zip_file, w)
    | None => (Ok tt, zip_file ++ [(file_name, converted_code)], w)
    end.

(** *** [create_zip_file] (lines 135-142)

    The frame is the archive opened on the fresh buffer, empty at entry;
    the value returned is the archive once every entry is written. *)
Definition create_zip_file (converted_files : list (str * str)) : M Zip Zip :=
  for_each converted_files (fun entry => writestr (fst entry) (snd entry)) ;;
  get_local (fun zip_file => zip_file).

(** *** [convert_procedure] (lines 10-56) *)
Definition convert_procedure (sql_code : str) : M unit (option str) :=
  client <- bedrock_client ;;
  let user_message := convert_prompt sql_code in
  try_except
    (response_text <- client_converse client (converse_request user_message) ;;
     ret (extract_sql_block response_text))
    (fun e => is_ClientError e || is_Exception e)
    (fun e =>
       print (invoke_error_line e) ;;
       ret None).

(** *** [procedure_error_rtry] (lines 58-108) *)
Definition procedure_error_rtry (connection : Connection) (sql_code error : str)
  : M unit (option str) :=
  client <- bedrock_client ;;
  let user_message := repair_prompt sql_code error in
  try_except
    (response_text <- client_converse client (converse_request user_message) ;;
     ret (extract_sql_block response_text))
    (fun e => is_ClientError e || is_Exception e)
    (fun e =>
       print (invoke_error_line e) ;;
       ret None).

(** *** [create_stored_procedure_in_snowflake] (lines 110-128)

    The frame holds the local [cursor], unbound ([None]) until
    [connection.cursor()] has returned.  The [try] statement yields
    [Some b] when a [return b] inside it was reached and [None] when
    control falls out of it, to the [return False] of line 128. *)
Definition create_stored_procedure_in_snowflake (connection : Connection)
    (sql_code : str) : M (option Cursor) bool :=
  returned <-
    try_finally
      (try_except
         (c <- cursor_of connection ;;
          assign (fun _ => Some c) ;;
          cursor <- read_local (fun l => l) (py "cursor"%string) ;;
          execute cursor sql_code ;;
          ret (Some true))
         is_ProgrammingError
         (fun e =>
            corrected_sql_code <-
              call tt (procedure_error_rtry connection sql_code (str_exn e)) ;;
            if_truthy corrected_sql_code
              (fun corrected =>
                 try_except
                   (cursor <- read_local (fun l => l) (py "cursor"%string) ;;
                    execute cursor corrected ;;
                    ret (Some true))
                   is_ProgrammingError
                   (fun _ => ret (Some false)))
              (ret None)))
      (cursor <- read_local (fun l => l) (py "cursor"%string) ;;
       cursor_close cursor) ;;
  match returned with
  | Some b => ret b
  | None => ret false
  end.

(** *** [process_sql_code] (lines 130-133) *)
Definition process_sql_code (sql_code : str) : M unit (option str) :=
  converted_code <- call tt (convert_procedure sql_code) ;;
  ret converted_code.

(** *** [main] (lines 144-202) *)

(** The body of the [for] loop (lines 169-180). *)
Definition loop_body (uploaded_file : UploadedFile) : M MainLocals Iteration :=
  sql_code <- lift_result (read_decode uploaded_file) ;;
  converted_code <- call tt (process_sql_code sql_code) ;;
  if_truthy converted_code
    (fun code =>
       converted_files_append (os_path_basename env (name uploaded_file), code) ;;
       connection <- read_local snowflake_connection (py "snowflake_connection"%string) ;;
       created <- call None (create_stored_procedure_in_snowflake connection code) ;;
       (if created : bool
        then created_successfully_append (os_path_basename env (name uploaded_file))
        else not_created_files_append (os_path_basename env (name uploaded_file))) ;;
       ret {| converted_code := converted_code; registered := Some created |})
    (not_created_files_append (os_path_basename env (name uploaded_file)) ;;
     ret {| converted_code := converted_code; registered := None |}).

(** The loop of lines 168-180. *)
Definition main_loop (uploaded_files : list UploadedFile)
  : M MainLocals (list Iteration) :=
  for_each uploaded_files loop_body.

(** Lines 183-195: the report and the download. *)
Definition display_results : M MainLocals unit :=
  st (StSuccess (py "Conversion Complete!"%string)) ;;
  st (StSubheader (py "Successfully Created Procedures in Snowflake:"%string)) ;;
  shown <- get_local created_successfully ;;
  st (StWrite shown) ;;
  st (StSubheader (py "Not Created Procedures:"%string)) ;;
  shown <- get_local not_created_files ;;
  st (StWrite shown) ;;
  files <- get_local converted_files ;;
  zip_file <- call [] (create_zip_file files) ;;
  st (StDownloadButton (py "Download All Converted Files"%string) zip_file
        (py "converted_procedures.zip"%string) (py "application/zip"%string)).

(** [main], in its own frame.  [uploaded_files] is what the uploader
    returned and [convert_clicked] what [st.button("Convert")] returned. *)
Definition main_body (uploaded_files : list UploadedFile) (convert_clicked : bool)
  : M MainLocals unit :=
  st (StTitle (py "MS SQL Server to Snowflake Procedure Converter"%string)) ;;
  st (StFileUploader (py "Upload SQL files"%string)) ;;
  st (StButton (py "Convert"%string)) ;;
  if convert_clicked then
    match uploaded_files with
    | _ :: _ =>
        assign (set_converted_files []) ;;
        assign (set_created_successfully []) ;;
        assign (set_not_created_files []) ;;
        try_finally
          (try_except
             (connection <- snowflake_connector_connect ;;
              assign (set_snowflake_connection connection) ;;
              main_loop uploaded_files ;;
              display_results)
             is_Exception
             (fun e =>
                st (StError (py "Failed to connect to Snowflake: "%string ++ str_exn e))))
          (connection <- read_local snowflake_connection (py "snowflake_connection"%string) ;;
           connection_close connection)
    | [] =>
        st (StWarning (py "Please upload at least one SQL file."%string))
    end
  else
    ret tt.

Definition main (uploaded_files : list UploadedFile) (convert_clicked : bool)
  : M unit unit :=
  call main_entry (main_body uploaded_files convert_clicked).

End Program.

(* ================================================================== *)
(** ** Reading a run *)

(** The lists that [st.write] showed, in order. *)
Fixpoint written (w : Trace) : list (list str) :=
  match w with
  | [] => []
  | EvSt (StWrite items) :: rest => items :: written rest
  | _ :: rest => written rest
  end.

(** The archives offered for download, in order. *)
Fixpoint downloads (w : Trace) : list Zip :=
  match w with
  | [] => []
  | EvSt (StDownloadButton _ data _ _) :: rest => data :: downloads rest
  | _ :: rest => downloads rest
  end.

(** The report of a run that reached the display: the Succeeded list, the
    Failed list and the archive. *)
Record BatchReport : Type := {
  succeeded : list str;
  failed : list str;
  archive : Zip
}.

Definition report_of (w : Trace) : option BatchReport :=
  match written w, downloads w with
  | [s; f], [z] => Some {| succeeded := s; failed := f; archive := z |}
  | _, _ => None
  end.

(** The statements submitted to the database, in order. *)
Fixpoint submissions (w : Trace) : list str :=
  match w with
  | [] => []
  | EvExecute _ stmt _ :: rest => stmt :: submissions rest
  | _ :: rest => submissions rest
  end.

(** The per-attempt discipline of section 4.4 on a trace: every submission
    is followed by a release of the statement handle before the next
    submission and before the end.  [pending] tells whether a submission
    has been made since the last release. *)
Fixpoint released_after_each_attempt (pending : bool) (w : Trace) : bool :=
  match w with
  | [] => negb pending
  | EvExecute _ _ _ :: rest => negb pending && released_after_each_attempt true rest
  | EvCursorClose _ :: rest => released_after_each_attempt false rest
  | _ :: rest => released_after_each_attempt pending rest
  end.

(** What may happen between the acquisition of the statement handle [c]
    and its release: submissions on [c] and the traffic of a repair
    request, but no other acquisition and no release. *)
Definition within_attempt (c : Cursor) (e : Event) : bool :=
  match e with
  | EvExecute c' _ _ => Nat.eqb c' c
  | EvClient _ | EvConverse _ _ _ | EvPrint _ => true
  | _ => false
  end.

(** The names selected by a list of verdicts. *)
Fixpoint select {A : Type} (keep : list bool) (xs : list A) : list A :=
  match keep, xs with
  | k :: keep', x :: xs' => if k then x :: select keep' xs' else select keep' xs'
  | _, _ => []
  end.

(** The verdict of one iteration: registered, or not. *)
Definition verdict (it : Iteration) : bool :=
  match registered it with Some true => true | _ => false end.

(** The archive entry an iteration adds, if any. *)
Definition archive_entry (env : Env) (f : UploadedFile) (it : Iteration)
  : list (str * str) :=
  if_truthy (converted_code it)
    (fun code => [(os_path_basename env (name f), code)]) [].

Definition archive_entries (env : Env) (fs : list UploadedFile) (its : list Iteration)
  : list (str * str) :=
  concat (map (fun p => archive_entry env (fst p) (snd p)) (combine fs its)).

(** The outcome of a computation started in the frame [tt] on the empty
    trace: a whole run of a top-level function. *)
Definition run {A : Type} (m : M unit A) : Result A * Trace :=
  match m tt [] with
  | (r, _, w) => (r, w)
  end.

(** Events of the two requesters: the model endpoint and the console. *)
Definition model_event (e : Event) : bool :=
  match e with
  | EvClient _ | EvConverse _ _ _ | EvPrint _ => true
  | _ => false
  end.

(** Events of one iteration of the loop: those of the requesters and the
    use of a statement handle, but neither the connection nor the page. *)
Definition loop_event (e : Event) : bool :=
  match e with
  | EvClient _ | EvConverse _ _ _ | EvPrint _
  | EvCursor _ _ | EvExecute _ _ _ | EvCursorClose _ => true
  | _ => false
  end.

(** [emits P m]: whatever the frame and the trace it starts from, [m] only
    appends to the trace, and only events that satisfy [P]. *)
Definition emits {L A : Type} (P : Event -> bool) (m : M L A) : Prop :=
  forall l w, exists evs, snd (m l w) = w ++ evs /\ forallb P evs = true.

(** The names under which the scripts of a batch are reported. *)
Definition names (env : Env) (files : list UploadedFile) : list str :=
  map (fun f => os_path_basename env (name f)) files.

(** [translated_by env files its l w]: running the loop over [files] from
    the frame [l] and the trace [w], the [converted_code] of each iteration
    of [its] is what the Translation Requester returned for that script,
    and registration was attempted exactly for the translations that are
    neither absent nor empty. *)
Fixpoint translated_by (env : Env) (files : list UploadedFile)
    (its : list Iteration) (l : MainLocals) (w : Trace) : Prop :=
  match files, its with
  | [], [] => True
  | f :: fs, it :: its' =>
      (exists sql_code,
         read_decode f = Ok sql_code /\
         fst (fst (process_sql_code env sql_code tt w)) = Ok (converted_code it))
      /\ (registered it = None <-> truthy (converted_code it) = false)
      /\ match loop_body env f l w with
         | (_, l1, w1) => translated_by env fs its' l1 w1
         end
  | _, _ => False
  end.

(** What [main] renders before it looks at the uploads. *)
Definition page_header : Trace :=
  [ EvSt (StTitle (py "MS SQL Server to Snowflake Procedure Converter"%string));
    EvSt (StFileUploader (py "Upload SQL files"%string));
    EvSt (StButton (py "Convert"%string)) ].

(** The error of the first entry that [writestr] rejects, if any. *)
Fixpoint first_rejected (env : Env) (entries : list (str * str)) : option exn :=
  match entries with
  | [] => None
  | entry :: rest =>
      match zipfile_writestr env (fst entry) (snd entry) with
      | Some e => Some e
      | None => first_rejected env rest
      end
  end.

(** What [display_results] renders from the locals of [main] before it
    builds the archive: the two outcome lists. *)
Definition display_lists (l : MainLocals) : Trace :=
  [ EvSt (StSuccess (py "Conversion Complete!"%string));
    EvSt (StSubheader (py "Successfully Created Procedures in Snowflake:"%string));
    EvSt (StWrite (created_successfully l));
    EvSt (StSubheader (py "Not Created Procedures:"%string));
    EvSt (StWrite (not_created_files l)) ].

(** What it renders in all when the archive is written: the lists and the
    download of the archive. *)
Definition display_events (l : MainLocals) : Trace :=
  display_lists l
  ++ [ EvSt (StDownloadButton (py "Download All Converted Files"%string)
               (converted_files l)
               (py "converted_procedures.zip"%string) (py "application/zip"%string)) ].

(** The frame and the trace with which the loop of [main] starts, once the
    connection is established. *)
Definition loop_entry : MainLocals := set_snowflake_connection 0%nat main_entry.
Definition loop_start : Trace := page_header ++ [EvConnect None].

(** A whole run of [main] on a batch after a click on Convert, by cases on
    how the connection, the loop and the writing of the archive end. *)
Definition main_outcome (env : Env) (files : list UploadedFile) : Result unit * Trace :=
  match snowflake_connect env 0%nat with
  | Some e =>
      (Raise (UnboundLocalError (py "snowflake_connection"%string)),
       page_header ++ [EvConnect (Some e)]
       ++ (if is_Exception e
           then [EvSt (StError (py "Failed to connect to Snowflake: "%string
                                ++ str_exn e))]
           else []))
  | None =>
      match main_loop env files loop_entry loop_start with
      | (Ok _, l1, w1) =>
          match first_rejected env (converted_files l1) with
          | None => (Ok tt, w1 ++ display_events l1 ++ [EvConnClose 0%nat])
          | Some e =>
              if is_Exception e
              then (Ok tt,
                    w1 ++ display_lists l1
                    ++ [EvSt (StError (py "Failed to connect to Snowflake: "%string
                                       ++ str_exn e));
                        EvConnClose 0%nat])
              else (Raise e, w1 ++ display_lists l1 ++ [EvConnClose 0%nat])
          end
      | (Raise e, _, w1) =>
          if is_Exception e
          then (Ok tt,
                w1 ++ [EvSt (StError (py "Failed to connect to Snowflake: "%string
                                      ++ str_exn e));
                       EvConnClose 0%nat])
          else (Raise e, w1 ++ [EvConnClose 0%nat])
      end
  end.

(** Events on the database connection itself. *)
Definition connection_event (e : Event) : bool :=
  is_EvConnect e || is_EvConnClose e.

(** The shape common to both requesters: create the client, send one
    request, extract the block, and turn any [Exception] of the call into
    a printed line and an absent result. *)
Definition requester_outcome (env : Env) (user_message : str) (w : Trace)
  : Result (option str) * unit * Trace :=
  let k := count is_EvClient w in
  let req := converse_request user_message in
  match boto3_client env k with
  | Some e => (Raise e, tt, w ++ [EvClient (Some e)])
  | None =>
      match converse env (count is_EvConverse w) req with
      | Ok text =>
          (Ok (extract_sql_block text), tt,
           w ++ [EvClient None; EvConverse k req (Ok text)])
      | Raise e =>
          if is_Exception e
          then (Ok None, tt,
                w ++ [EvClient None; EvConverse k req (Raise e);
                      EvPrint (invoke_error_line e)])
          else (Raise e, tt, w ++ [EvClient None; EvConverse k req (Raise e)])
      end
  end.

(** Services under which no error escapes an iteration of the loop: the
    connection is established, clients and statement handles are handed
    out, the model endpoint fails only with an [Exception], and the
    database rejects a statement only with a programming error. *)
Record Cooperative (env : Env) : Prop := {
  coop_connect : snowflake_connect env 0%nat = None;
  coop_client : forall k, boto3_client env k = None;
  coop_converse : forall k req e, converse env k req = Raise e -> is_Exception e = true;
  coop_cursor : forall k c, connection_cursor env k c = None;
  coop_execute :
    forall k stmt e, cursor_execute env k stmt = Some e -> is_ProgrammingError e = true
}.

(** Every file of the batch decodes as UTF-8. *)
Definition decodes (f : UploadedFile) : Prop :=
  exists sql_code, read_decode f = Ok sql_code.


(* ================================================================== *)
(** ** Sample batches and services *)

Module Samples.

Definition file_a : UploadedFile :=
  {| name := py "a.sql"%string;
     read_decode := Ok (py "CREATE PROCEDURE a AS SELECT 1"%string) |}.

Definition file_b : UploadedFile :=
  {| name := py "b.sql"%string;
     read_decode := Ok (py "CREATE PROCEDURE b AS SELECT 2"%string) |}.

(** A second upload that carries the name of the first. *)
Definition file_a_again : UploadedFile :=
  {| name := py "a.sql"%string;
     read_decode := Ok (py "CREATE PROCEDURE a AS SELECT 3"%string) |}.

Definition translated : str := py "CREATE PROCEDURE a() RETURNS INT AS $$ 1 $$;"%string.
Definition repaired : str := py "CREATE PROCEDURE a() RETURNS NUMBER AS $$ 1 $$;"%string.

(** A reply of the model with one fenced block. *)
Definition reply (body : str) : str :=
  py "Here is the procedure:"%string ++ nl ++ fence_sql ++ nl ++ body ++ nl ++ fence.

Definition reply_without_block : str := py "I cannot convert this."%string.
Definition reply_with_blank_block : str := fence_sql ++ py "  "%string ++ nl ++ fence.

Definition syntax_error : exn := ProgrammingError (py "syntax error line 1"%string).

(** Every service answers; each reply holds the translated body. *)
Definition env_fine : Env :=
  {| boto3_client := fun _ => None;
     converse := fun _ _ => Ok (reply translated);
     snowflake_connect := fun _ => None;
     connection_cursor := fun _ _ => None;
     cursor_execute := fun _ _ => None;
     os_path_basename := posix_basename;
     zipfile_writestr := writestr_cpython311 |}.

(** The second request to the model comes back without a block. *)
Definition env_second_absent : Env :=
  {| boto3_client := fun _ => None;
     converse := fun k _ => match k with
                            | O => Ok (reply translated)
                            | S _ => Ok reply_without_block
                            end;
     snowflake_connect := fun _ => None;
     connection_cursor := fun _ _ => None;
     cursor_execute := fun _ _ => None;
     os_path_basename := posix_basename;
     zipfile_writestr := writestr_cpython311 |}.

(** The session is lost: a submission fails, but not with a programming
    error. *)
Definition env_session_lost : Env :=
  {| boto3_client := fun _ => None;
     converse := fun _ _ => Ok (reply translated);
     snowflake_connect := fun _ => None;
     connection_cursor := fun _ _ => None;
     cursor_execute := fun _ _ => Some (OtherException (py "connection lost"%string));
     os_path_basename := posix_basename;
     zipfile_writestr := writestr_cpython311 |}.

(** The database rejects every statement; the model answers every request
    with the repaired body. *)
Definition env_always_rejected : Env :=
  {| boto3_client := fun _ => None;
     converse := fun _ _ => Ok (reply repaired);
     snowflake_connect := fun _ => None;
     connection_cursor := fun _ _ => None;
     cursor_execute := fun _ _ => Some syntax_error;
     os_path_basename := posix_basename;
     zipfile_writestr := writestr_cpython311 |}.

(** The database rejects every statement; the model answers with a block
    that holds only whitespace. *)
Definition env_blank_repair : Env :=
  {| boto3_client := fun _ => None;
     converse := fun _ _ => Ok reply_with_blank_block;
     snowflake_connect := fun _ => None;
     connection_cursor := fun _ _ => None;
     cursor_execute := fun _ _ => Some syntax_error;
     os_path_basename := posix_basename;
     zipfile_writestr := writestr_cpython311 |}.

(** The model answers with a block that holds only whitespace. *)
Definition env_blank_translation : Env :=
  {| boto3_client := fun _ => None;
     converse := fun _ _ => Ok reply_with_blank_block;
     snowflake_connect := fun _ => None;
     connection_cursor := fun _ _ => None;
     cursor_execute := fun _ _ => None;
     os_path_basename := posix_basename;
     zipfile_writestr := writestr_cpython311 |}.

(** The model answers without a block. *)
Definition env_no_block : Env :=
  {| boto3_client := fun _ => None;
     converse := fun _ _ => Ok reply_without_block;
     snowflake_connect := fun _ => None;
     connection_cursor := fun _ _ => None;
     cursor_execute := fun _ _ => None;
     os_path_basename := posix_basename;
     zipfile_writestr := writestr_cpython311 |}.

(** The first submission is rejected, every later one accepted; the first
    reply of the model holds the translated body, the later ones the
    repaired body. *)
Definition env_repair_works : Env :=
  {| boto3_client := fun _ => None;
     converse := fun k _ => match k with
                            | O => Ok (reply translated)
                            | S _ => Ok (reply repaired)
                            end;
     snowflake_connect := fun _ => None;
     connection_cursor := fun _ _ => None;
     cursor_execute := fun k _ => match k with
                                  | O => Some syntax_error
                                  | S _ => None
                                  end;
     os_path_basename := posix_basename;
     zipfile_writestr := writestr_cpython311 |}.

(** Three requests for three scripts, and one repair: the first script is
    translated and registered at once; the translation of the second is
    rejected, repaired and then accepted; the third gets a reply without
    a block. *)
Definition env_second_repaired : Env :=
  {| boto3_client := fun _ => None;
     converse := fun k _ => match k with
                            | 0%nat | 1%nat => Ok (reply translated)
                            | 2%nat => Ok (reply repaired)
                            | _ => Ok reply_without_block
                            end;
     snowflake_connect := fun _ => None;
     connection_cursor := fun _ _ => None;
     cursor_execute := fun k _ => match k with
                                  | 1%nat => Some syntax_error
                                  | _ => None
                                  end;
     os_path_basename := posix_basename;
     zipfile_writestr := writestr_cpython311 |}.

(** The connection cannot be established. *)
Definition env_no_connection : Env :=
  {| boto3_client := fun _ => None;
     converse := fun _ _ => Ok (reply translated);
     snowflake_connect := fun _ => Some (OtherException (py "could not connect"%string));
     connection_cursor := fun _ _ => None;
     cursor_execute := fun _ _ => None;
     os_path_basename := posix_basename;
     zipfile_writestr := writestr_cpython311 |}.

Definition throttled : exn :=
  ClientError (py "An error occurred (ThrottlingException) when calling the Converse operation: Too many requests"%string).

(** The model endpoint refuses every request. *)
Definition env_model_down : Env :=
  {| boto3_client := fun _ => None;
     converse := fun _ _ => Raise throttled;
     snowflake_connect := fun _ => None;
     connection_cursor := fun _ _ => None;
     cursor_execute := fun _ _ => None;
     os_path_basename := posix_basename;
     zipfile_writestr := writestr_cpython311 |}.

End Samples.

(* ================================================================== *)
(** ** Reading the database traffic of a run *)

(** A submission that the database accepted. *)
Definition accepted (e : Event) : bool :=
  match e with
  | EvExecute _ _ None => true
  | _ => false
  end.

(** More sample services and uploads. *)
Module MoreSamples.

(** A file saved as UTF-16: decoding it as UTF-8 fails. *)
Definition file_utf16 : UploadedFile :=
  {| name := py "c.sql"%string;
     read_decode :=
       Raise (UnicodeDecodeError
                (py "'utf-8' codec can't decode byte 0xff in position 0: invalid start byte"%string)) |}.

(** An upload whose name ends with a slash: its base name is empty. *)
Definition file_slash : UploadedFile :=
  {| name := py "procs/"%string;
     read_decode := Ok (py "CREATE PROCEDURE s AS SELECT 4"%string) |}.

(** The session hands out no statement handle. *)
Definition env_no_cursor : Env :=
  {| boto3_client := fun _ => None;
     converse := fun _ _ => Ok (Samples.reply Samples.translated);
     snowflake_connect := fun _ => None;
     connection_cursor :=
       fun _ _ => Some (OtherException (py "Connection is closed"%string));
     cursor_execute := fun _ _ => None;
     os_path_basename := posix_basename;
     zipfile_writestr := writestr_cpython311 |}.

(** The Bedrock client cannot be created. *)
Definition env_no_client : Env :=
  {| boto3_client := fun _ => Some (OtherException (py "Unknown service: 'bedrock-runtime'"%string));
     converse := fun _ _ => Ok (Samples.reply Samples.translated);
     snowflake_connect := fun _ => None;
     connection_cursor := fun _ _ => None;
     cursor_execute := fun _ _ => None;
     os_path_basename := posix_basename;
     zipfile_writestr := writestr_cpython311 |}.

End MoreSamples.
(* ================================================================== *)
(** ** Facts about [find] and slices *)

Section FindFacts.

Lemma startswith_app (p b : str) : startswith (p ++ b) p = true.
Proof.
  induction p as [|a p IH]; simpl; [reflexivity|].
  now rewrite N.eqb_refl, IH.
Qed.

Lemma startswith_inv (s p : str) :
  startswith s p = true -> exists b, s = p ++ b.
Proof.
  revert s; induction p as [|a p IH]; intros s H.
  - now exists s.
  - destruct s as [|c s]; simpl in H; [discriminate|].
    apply andb_true_iff in H as [Hc Hs].
    apply N.eqb_eq in Hc; subst c.
    destruct (IH _ Hs) as [b ->]. now exists b.
Qed.

Lemma startswith_false (s p b : str) :
  startswith s p = false -> s <> p ++ b.
Proof.
  intros H ->. now rewrite startswith_app in H.
Qed.

(** [find_at] reports the first occurrence, or [-1] when there is none. *)
Lemma find_at_cases (sub s : str) (i : Z) :
  (find_at s sub i = -1 /\ ~ occurs sub s) \/
  (exists a, first_at sub s a /\ find_at s sub i = i + len a).
Proof.
  revert i; induction s as [|c s IH]; intros i; simpl.
  - destruct (startswith [] sub) eqn:E.
    + right. exists []. split; [|unfold len; simpl; lia].
      destruct (startswith_inv _ _ E) as [b Hb]. split.
      * exists b. exact Hb.
      * intros; simpl; lia.
    + left. split; [reflexivity|].
      intros (a & b & H). destruct a; simpl in H.
      * now apply (startswith_false _ _ b) in E.
      * discriminate.
  - destruct (startswith (c :: s) sub) eqn:E.
    + right. exists []. split; [|unfold len; simpl; lia].
      destruct (startswith_inv _ _ E) as [b Hb]. split.
      * exists b. exact Hb.
      * intros; simpl; lia.
    + destruct (IH (i + 1)) as [[Hf Hno] | (a & [[b Hb] Hmin] & Hf)].
      * left. split; [exact Hf|].
        intros (a & b & H). destruct a as [|x a]; simpl in H.
        -- now apply (startswith_false _ _ b) in E.
        -- injection H as _ H. apply Hno. now exists a, b.
      * right. exists (c :: a). split; [split|].
        -- exists b. simpl. now rewrite Hb.
        -- intros a' b' H. destruct a' as [|x a']; simpl in H.
           ++ now apply (startswith_false _ _ b') in E.
           ++ injection H as _ H. apply Hmin in H. simpl. lia.
        -- rewrite Hf. unfold len. simpl length. lia.
Qed.

Lemma skipn_app_exact {A : Type} (a b : list A) :
  skipn (length a) (a ++ b) = b.
Proof. induction a; simpl; auto. Qed.

Lemma firstn_app_exact {A : Type} (a b : list A) :
  firstn (length a) (a ++ b) = a.
Proof. induction a; simpl; [reflexivity | now f_equal]. Qed.

Lemma find_zero (s sub : str) : find s sub 0 = find_at s sub 0.
Proof.
  unfold find. simpl.
  destruct (len s <? 0) eqn:E; [|reflexivity].
  apply Z.ltb_lt in E. unfold len in E. lia.
Qed.

(** Searching from an offset that lies inside the subject. *)
Lemma find_from_prefix (a rest sub : str) :
  find (a ++ rest) sub (len a) = find_at rest sub (len a).
Proof.
  unfold find, len.
  destruct (Z.of_nat (length a) <? 0) eqn:E0.
  { apply Z.ltb_lt in E0. lia. }
  destruct (Z.of_nat (length (a ++ rest)) <? Z.of_nat (length a)) eqn:E1.
  { apply Z.ltb_lt in E1. rewrite length_app in E1. lia. }
  now rewrite Nat2Z.id, skipn_app_exact.
Qed.

Lemma slice_middle (a m b : str) :
  slice (a ++ m ++ b) (len a) (len a + len m) = m.
Proof.
  unfold slice, slice_index, len.
  rewrite !length_app.
  destruct (Z.of_nat (length a) <? 0) eqn:E0.
  { apply Z.ltb_lt in E0. lia. }
  destruct (Z.of_nat (length a) + Z.of_nat (length m) <? 0) eqn:E1.
  { apply Z.ltb_lt in E1. lia. }
  rewrite Z.min_l by lia. rewrite Z.min_l by lia.
  replace (Z.of_nat (length a) + Z.of_nat (length m) - Z.of_nat (length a))
    with (Z.of_nat (length m)) by lia.
  now rewrite !Nat2Z.id, skipn_app_exact, firstn_app_exact.
Qed.

(** Two first occurrences of the same marker start at the same place. *)
Lemma first_at_unique (sub s a1 a2 : str) :
  first_at sub s a1 -> first_at sub s a2 -> a1 = a2.
Proof.
  intros [[b1 H1] M1] [[b2 H2] M2].
  pose proof (M1 _ _ H2) as L1. pose proof (M2 _ _ H1) as L2.
  assert (L : length a1 = length a2) by lia.
  rewrite H1 in H2. clear - H2 L.
  revert a2 L H2; induction a1 as [|x a1 IH]; intros [|y a2] L H; simpl in *;
    try discriminate; [reflexivity|].
  injection H as -> H. f_equal. apply IH; [lia | exact H].
Qed.

Lemma first_at_occurs (sub s a : str) : first_at sub s a -> occurs sub s.
Proof. intros [[b H] _]. now exists a, b. Qed.

Lemma lstrip_whitespace (ws : str) :
  forallb isspace ws = true -> lstrip ws = [].
Proof.
  induction ws as [|c ws IH]; simpl; [reflexivity|].
  intros H. apply andb_true_iff in H as [Hc Hr]. now rewrite Hc, IH.
Qed.

Lemma strip_whitespace (ws : str) :
  forallb isspace ws = true -> strip ws = [].
Proof. intros H. unfold strip. now rewrite lstrip_whitespace. Qed.

(** A closing marker that follows nothing but whitespace is the next one:
    a backquote is not whitespace. *)
Lemma first_at_after_whitespace (ws post : str) :
  forallb isspace ws = true -> first_at fence (ws ++ fence ++ post) ws.
Proof.
  intros Hws. split; [now exists post|].
  intros a' b' H.
  destruct (Nat.le_gt_cases (length ws) (length a')) as [Hle|Hlt]; [exact Hle|].
  exfalso.
  assert (H1 : nth_error (ws ++ fence ++ post) (length a') = Some 96%N).
  { rewrite H, nth_error_app2, Nat.sub_diag by lia. reflexivity. }
  rewrite nth_error_app1 in H1 by exact Hlt.
  apply nth_error_In in H1.
  pose proof (proj1 (forallb_forall isspace ws) Hws _ H1) as Hsp.
  discriminate Hsp.
Qed.

End FindFacts.

(* ================================================================== *)
(** ** Facts about [strip] *)

Section StripFacts.

(** What [lstrip] removes is whitespace, and what it leaves does not begin
    with whitespace. *)
Lemma lstrip_decompose (s : str) :
  exists a, s = a ++ lstrip s /\ forallb isspace a = true.
Proof.
  induction s as [|c s (a & Ha & Fa)]; simpl.
  - now exists [].
  - destruct (isspace c) eqn:Hc.
    + exists (c :: a). simpl. rewrite Hc, Fa. split; [now f_equal | reflexivity].
    + now exists [].
Qed.

Lemma lstrip_head (s : str) (c : N) (t : str) :
  lstrip s = c :: t -> isspace c = false.
Proof.
  induction s as [|x s IH]; simpl; [discriminate|].
  destruct (isspace x) eqn:Hx; [exact IH|].
  intros H; injection H as <- _. exact Hx.
Qed.

Lemma rstrip_decompose (s : str) :
  exists b, s = rstrip s ++ b /\ forallb isspace b = true.
Proof.
  unfold rstrip. destruct (lstrip_decompose (rev s)) as (a & Ha & Fa).
  exists (rev a). split.
  - rewrite <- rev_app_distr, <- Ha. now rewrite rev_involutive.
  - rewrite forallb_forall in *. intros x Hx. apply Fa. now apply in_rev.
Qed.

Lemma rstrip_last (s t : str) (c : N) :
  rstrip s = t ++ [c] -> isspace c = false.
Proof.
  unfold rstrip. intros H.
  apply (f_equal (@rev N)) in H. rewrite rev_involutive, rev_app_distr in H.
  simpl in H. exact (lstrip_head _ _ _ H).
Qed.

(** [strip] keeps a contiguous part of its argument. *)
Lemma strip_decompose (s : str) :
  exists a b, s = a ++ strip s ++ b.
Proof.
  unfold strip.
  destruct (lstrip_decompose s) as (a & Ha & _).
  destruct (rstrip_decompose (lstrip s)) as (b & Hb & _).
  exists a, b. now rewrite <- Hb.
Qed.

Lemma strip_head (s : str) (c : N) (t : str) :
  strip s = c :: t -> isspace c = false.
Proof.
  unfold strip. intros H.
  destruct (rstrip_decompose (lstrip s)) as (b & Hb & _).
  rewrite H in Hb. simpl in Hb. exact (lstrip_head _ _ _ Hb).
Qed.

Lemma lstrip_app_whitespace (ws s : str) :
  forallb isspace ws = true -> lstrip (ws ++ s) = lstrip s.
Proof.
  induction ws as [|c ws IH]; simpl; [reflexivity|].
  intros H. apply andb_true_iff in H as [Hc Hr]. rewrite Hc. now apply IH.
Qed.

Lemma rstrip_app_whitespace (s ws : str) :
  forallb isspace ws = true -> rstrip (s ++ ws) = rstrip s.
Proof.
  intros H. unfold rstrip. rewrite rev_app_distr, lstrip_app_whitespace; [reflexivity|].
  rewrite forallb_forall in *. intros x Hx. apply H. now apply in_rev.
Qed.

(** Whitespace around a trimmed body is all that [strip] removes. *)
Lemma strip_padded (ws1 body ws2 : str) :
  forallb isspace ws1 = true -> forallb isspace ws2 = true ->
  strip body = body ->
  strip (ws1 ++ body ++ ws2) = body.
Proof.
  intros H1 H2 Hb.
  destruct body as [|c body].
  - unfold strip. rewrite lstrip_app_whitespace by exact H1.
    simpl. now rewrite lstrip_whitespace.
  - pose proof (strip_head _ _ _ Hb) as Hc.
    unfold strip in *.
    rewrite lstrip_app_whitespace by exact H1.
    assert (Hl : lstrip (c :: body) = c :: body) by (simpl; now rewrite Hc).
    rewrite Hl in Hb.
    assert (Hl2 : lstrip ((c :: body) ++ ws2) = (c :: body) ++ ws2)
      by (simpl; now rewrite Hc).
    rewrite Hl2, rstrip_app_whitespace by exact H2. exact Hb.
Qed.

Lemma strip_last (s t : str) (c : N) :
  strip s = t ++ [c] -> isspace c = false.
Proof. unfold strip. apply rstrip_last. Qed.

Lemma strip_decompose_whitespace (s : str) :
  exists a b,
    s = a ++ strip s ++ b /\ forallb isspace a = true /\ forallb isspace b = true.
Proof.
  unfold strip.
  destruct (lstrip_decompose s) as (a & Ha & Fa).
  destruct (rstrip_decompose (lstrip s)) as (b & Hb & Fb).
  exists a, b. split; [now rewrite <- Hb | now split].
Qed.

(** A text that neither begins nor ends with whitespace is left as it is. *)
Lemma strip_fixed (r : str) :
  (forall c t, r = c :: t -> isspace c = false) ->
  (forall t c, r = t ++ [c] -> isspace c = false) ->
  strip r = r.
Proof.
  intros Hh Hl. unfold strip.
  assert (E : lstrip r = r).
  { destruct r as [|c t]; [reflexivity|]. simpl. now rewrite (Hh c t eq_refl). }
  rewrite E. unfold rstrip.
  destruct r as [|c t] using rev_ind; [reflexivity|].
  rewrite rev_app_distr. simpl. rewrite (Hl t c eq_refl).
  now rewrite <- (rev_involutive t) at 2.
Qed.

(** [isspace] decides whitespace. *)
Lemma isspace_Whitespace (c : N) : isspace c = true <-> Whitespace c.
Proof.
  unfold isspace, Whitespace, whitespace_code_points. cbn [In].
  rewrite !orb_true_iff, !andb_true_iff, !N.leb_le, !N.eqb_eq. lia.
Qed.

Lemma isspace_not_Whitespace (c : N) : isspace c = false <-> ~ Whitespace c.
Proof.
  rewrite <- isspace_Whitespace. destruct (isspace c); split; congruence.
Qed.

Lemma forallb_isspace_Whitespace (s : str) :
  forallb isspace s = true <-> Forall Whitespace s.
Proof.
  rewrite forallb_forall, Forall_forall.
  split; intros H c Hc; apply isspace_Whitespace, H, Hc.
Qed.

(** [strip] computes the trimmed text, and the trimmed text is unique. *)
Lemma strip_trimmed (s : str) : Trimmed s (strip s).
Proof.
  split.
  - destruct (strip_decompose_whitespace s) as (a & b & E & Fa & Fb).
    exists a, b. split; [exact E|]. split; now apply forallb_isspace_Whitespace.
  - split.
    + intros c t H. apply isspace_not_Whitespace. exact (strip_head _ _ _ H).
    + intros t c H. apply isspace_not_Whitespace. exact (strip_last _ _ _ H).
Qed.

Lemma trimmed_unique (s body : str) : Trimmed s body -> strip s = body.
Proof.
  intros ((a & b & -> & Fa & Fb) & Hh & Hl).
  apply strip_padded; try now apply forallb_isspace_Whitespace.
  apply strip_fixed.
  - intros c t E. apply isspace_not_Whitespace. exact (Hh c t E).
  - intros t c E. apply isspace_not_Whitespace. exact (Hl t c E).
Qed.

End StripFacts.

(* ================================================================== *)
(** ** The extractor meets its contract *)

Section Extractor.

Lemma len_app (a b : str) : len (a ++ b) = len a + len b.
Proof. unfold len. rewrite length_app. lia. Qed.

Lemma len_nonneg (a : str) : 0 <= len a.
Proof. unfold len. lia. Qed.

Lemma len_fence_sql : len fence_sql = 6.
Proof. reflexivity. Qed.

(** The code's answer always satisfies the contract. *)
Lemma extract_sql_block_sound (text : str) :
  ResponseExtractor text (extract_sql_block text).
Proof.
  unfold extract_sql_block. cbv zeta. rewrite find_zero.
  destruct (find_at_cases fence_sql text 0) as [[Hf Hno] | (pre & Hfirst & Hf)].
  - rewrite Hf. simpl. now apply RE_no_opening.
  - rewrite Hf. destruct Hfirst as [[rest Hrest] Hmin].
    assert (Hfirst : first_at fence_sql text pre) by (split; [now exists rest | exact Hmin]).
    pose proof (len_nonneg pre) as Hpre.
    replace (0 + len pre + 6) with (len (pre ++ fence_sql))
      by (rewrite len_app, len_fence_sql; lia).
    assert (Htext : text = (pre ++ fence_sql) ++ rest) by (now rewrite <- app_assoc).
    assert (Hfind : find text fence (len (pre ++ fence_sql))
                    = find_at rest fence (len (pre ++ fence_sql)))
      by (rewrite Htext; apply find_from_prefix).
    rewrite Hfind.
    assert (Hs : (0 + len pre =? -1) = false) by (apply Z.eqb_neq; lia).
    rewrite Hs. simpl negb. simpl andb.
    destruct (find_at_cases fence rest (len (pre ++ fence_sql)))
      as [[Hg Hnone] | (inner & Hinner & Hg)].
    + rewrite Hg. simpl. now apply (RE_unterminated text pre rest).
    + rewrite Hg.
      pose proof (len_nonneg (pre ++ fence_sql)) as Hp.
      pose proof (len_nonneg inner) as Hi.
      assert (He : (len (pre ++ fence_sql) + len inner =? -1) = false)
        by (apply Z.eqb_neq; lia).
      rewrite He. simpl negb. cbv iota.
      destruct Hinner as [[post Hpost] Hmin'].
      assert (Hsl : slice text (len (pre ++ fence_sql)) (len (pre ++ fence_sql) + len inner)
                    = inner).
      { rewrite Htext, Hpost. apply slice_middle. }
      rewrite Hsl.
      apply (RE_block text pre inner post).
      * now rewrite Hrest, Hpost.
      * exact Hfirst.
      * rewrite <- Hpost. split; [now exists post | exact Hmin'].
      * apply strip_trimmed.
Qed.

(** The contract determines the answer. *)
Lemma ResponseExtractor_functional (text : str) (r1 r2 : option str) :
  ResponseExtractor text r1 -> ResponseExtractor text r2 -> r1 = r2.
Proof.
  intros H1 H2.
  destruct H1 as [pre inner post body Ht Hf Hc Hb | Hno | pre rest Ht Hf Hno];
    destruct H2 as [pre' inner' post' body' Ht' Hf' Hc' Hb' | Hno'
                   | pre' rest' Ht' Hf' Hno'];
    try reflexivity.
  - pose proof (first_at_unique _ _ _ _ Hf Hf'); subst pre'.
    rewrite Ht in Ht'. apply app_inv_head in Ht'. apply app_inv_head in Ht'.
    rewrite <- Ht' in Hc'.
    pose proof (first_at_unique _ _ _ _ Hc Hc'); subst inner'.
    now rewrite <- (trimmed_unique _ _ Hb), <- (trimmed_unique _ _ Hb').
  - exfalso. apply Hno'. exact (first_at_occurs _ _ _ Hf).
  - exfalso. pose proof (first_at_unique _ _ _ _ Hf Hf'); subst pre'.
    rewrite Ht in Ht'. apply app_inv_head in Ht'. apply app_inv_head in Ht'.
    apply Hno'. exists inner, post. now rewrite <- Ht'.
  - exfalso. apply Hno. exact (first_at_occurs _ _ _ Hf').
  - exfalso. pose proof (first_at_unique _ _ _ _ Hf Hf'); subst pre'.
    rewrite Ht in Ht'. apply app_inv_head in Ht'. apply app_inv_head in Ht'.
    apply Hno. exists inner', post'. now rewrite Ht'.
Qed.

(** C4. For every input text the Response Extractor returns exactly what
    the contract of section 4.1 prescribes: the trimmed text strictly
    between the first [```sql] marker and the next [```] marker when both
    exist, and absent when the text has no opening marker or has an opening
    marker with no closing marker after it. *)
Theorem extract_sql_block_contract (text : str) (r : option str) :
  extract_sql_block text = r <-> ResponseExtractor text r.
Proof.
  split.
  - intros <-. apply extract_sql_block_sound.
  - intros H. exact (ResponseExtractor_functional _ _ _ (extract_sql_block_sound text) H).
Qed.

Example extract_block :
  extract_sql_block (py "Here you go:
```sql
CREATE PROCEDURE p() RETURNS INT AS $$ 1 $$;
``` done"%string)
  = Some (py "CREATE PROCEDURE p() RETURNS INT AS $$ 1 $$;"%string).
Proof. reflexivity. Qed.

Example extract_no_opening :
  extract_sql_block (py "``` select 1 ```"%string) = None.
Proof. reflexivity. Qed.

Example extract_unterminated :
  extract_sql_block (py "```sql select 1 ``"%string) = None.
Proof. reflexivity. Qed.

Example extract_whitespace_only :
  extract_sql_block (py "```sql
   ```"%string) = Some [].
Proof. reflexivity. Qed.

End Extractor.

(* ================================================================== *)
(** ** Traces: counting and what a computation may emit *)

Create HintDb py_ops.
#[export] Hint Unfold bind ret try_except try_finally call read_local get_local
  assign emit attempt lift_result print st : py_ops.

(** Exposes the state passing of a computation. *)
Ltac unfold_py := autounfold with py_ops.

Create HintDb emits.

Section Traces.

Lemma count_app (p : Event -> bool) (a b : Trace) :
  count p (a ++ b) = (count p a + count p b)%nat.
Proof. unfold count. now rewrite filter_app, length_app. Qed.

Lemma count_snoc (p : Event -> bool) (w : Trace) (e : Event) :
  count p (w ++ [e]) = (count p w + (if p e then 1 else 0))%nat.
Proof. rewrite count_app. unfold count. simpl. now destruct (p e). Qed.

Lemma count_none (p q : Event -> bool) (evs : Trace) :
  (forall e, q e = true -> p e = false) ->
  forallb q evs = true -> count p evs = 0%nat.
Proof.
  intros Hpq. unfold count.
  induction evs as [|e evs IH]; simpl; intros H; [reflexivity|].
  apply andb_true_iff in H as [He Hr].
  rewrite (Hpq _ He). now apply IH.
Qed.

Lemma written_app (a b : Trace) : written (a ++ b) = written a ++ written b.
Proof.
  induction a as [|e a IH]; simpl; [reflexivity|].
  destruct e as [ | | | | | | | |u]; try exact IH.
  destruct u; try exact IH. simpl. now rewrite IH.
Qed.

Lemma downloads_app (a b : Trace) : downloads (a ++ b) = downloads a ++ downloads b.
Proof.
  induction a as [|e a IH]; simpl; [reflexivity|].
  destruct e as [ | | | | | | | |u]; try exact IH.
  destruct u; try exact IH. simpl. now rewrite IH.
Qed.

Lemma submissions_app (a b : Trace) :
  submissions (a ++ b) = submissions a ++ submissions b.
Proof.
  induction a as [|e a IH]; simpl; [reflexivity|].
  destruct e; try exact IH. simpl. now rewrite IH.
Qed.

Lemma written_loop_events (evs : Trace) :
  forallb loop_event evs = true -> written evs = [].
Proof.
  induction evs as [|e evs IH]; simpl; [reflexivity|].
  intros H. apply andb_true_iff in H as [He Hr].
  destruct e; try discriminate; now apply IH.
Qed.

Lemma downloads_loop_events (evs : Trace) :
  forallb loop_event evs = true -> downloads evs = [].
Proof.
  induction evs as [|e evs IH]; simpl; [reflexivity|].
  intros H. apply andb_true_iff in H as [He Hr].
  destruct e; try discriminate; now apply IH.
Qed.

Lemma forallb_weaken (p q : Event -> bool) (evs : Trace) :
  (forall e, p e = true -> q e = true) ->
  forallb p evs = true -> forallb q evs = true.
Proof.
  intros Hpq H. apply forallb_forall. intros e He.
  apply Hpq. now apply (proj1 (forallb_forall p evs) H).
Qed.

Lemma model_event_loop_event (e : Event) :
  model_event e = true -> loop_event e = true.
Proof. now destruct e. Qed.

Lemma count_cons (p : Event -> bool) (e : Event) (w : Trace) :
  count p (e :: w) = ((if p e then 1 else 0) + count p w)%nat.
Proof. unfold count. simpl. now destruct (p e). Qed.

Lemma count_nil (p : Event -> bool) : count p [] = 0%nat.
Proof. reflexivity. Qed.

End Traces.

(** Normalises the indices at which the oracles are asked. *)
Ltac counts :=
  rewrite ?count_app, ?count_cons, ?count_nil;
  cbn [is_EvClient is_EvConverse is_EvConnect is_EvCursor is_EvExecute
       is_EvCursorClose is_EvConnClose is_EvSt Nat.add];
  rewrite ?Nat.add_0_r, ?Nat.add_1_r.

Section Emits.

Context {L : Type} (P : Event -> bool).

Lemma emits_ret {A : Type} (a : A) : emits P (@ret L A a).
Proof. intros l w. exists []. simpl. now rewrite app_nil_r. Qed.

Lemma emits_bind {A B : Type} (m : M L A) (k : A -> M L B) :
  emits P m -> (forall a, emits P (k a)) -> emits P (bind m k).
Proof.
  intros Hm Hk l w. unfold bind.
  destruct (Hm l w) as (e1 & H1 & F1).
  destruct (m l w) as [[[a|e] l1] w1]; simpl in H1; subst w1.
  - destruct (Hk a l1 (w ++ e1)) as (e2 & H2 & F2).
    exists (e1 ++ e2). rewrite H2, app_assoc, forallb_app, F1, F2. now split.
  - now exists e1.
Qed.

Lemma emits_try_except {A : Type} (body : M L A) (classes : exn -> bool)
    (handler : exn -> M L A) :
  emits P body -> (forall e, emits P (handler e)) ->
  emits P (try_except body classes handler).
Proof.
  intros Hm Hk l w. unfold try_except.
  destruct (Hm l w) as (e1 & H1 & F1).
  destruct (body l w) as [[[a|e] l1] w1]; simpl in H1; subst w1.
  - now exists e1.
  - destruct (classes e).
    + destruct (Hk e l1 (w ++ e1)) as (e2 & H2 & F2).
      exists (e1 ++ e2). rewrite H2, app_assoc, forallb_app, F1, F2. now split.
    + now exists e1.
Qed.

Lemma emits_try_finally {A : Type} (body : M L A) (fin : M L unit) :
  emits P body -> emits P fin -> emits P (try_finally body fin).
Proof.
  intros Hm Hf l w. unfold try_finally.
  destruct (Hm l w) as (e1 & H1 & F1).
  destruct (body l w) as [[r l1] w1]; simpl in H1; subst w1.
  destruct (Hf l1 (w ++ e1)) as (e2 & H2 & F2).
  exists (e1 ++ e2). rewrite app_assoc, forallb_app, F1, F2.
  destruct (fin l1 (w ++ e1)) as [[[u|e] l2] w2]; simpl in *; now subst.
Qed.

Lemma emits_call {L' A : Type} (fresh : L') (m : M L' A) :
  @emits L' A P m -> emits P (@call L L' A fresh m).
Proof.
  intros Hm l w. unfold call.
  destruct (Hm fresh w) as (e1 & H1 & F1).
  destruct (m fresh w) as [[r l1] w1]; simpl in *. now exists e1.
Qed.

Lemma emits_for_each {A B : Type} (xs : list A) (body : A -> M L B) :
  (forall x, emits P (body x)) -> emits P (for_each xs body).
Proof.
  intros Hb. induction xs as [|x xs IH]; simpl.
  - apply emits_ret.
  - apply emits_bind; [apply Hb|]. intros b.
    apply emits_bind; [exact IH|]. intros bs. apply emits_ret.
Qed.

Lemma emits_read_local {A : Type} (get : L -> option A) (var : str) :
  emits P (read_local get var).
Proof.
  intros l w. exists []. unfold read_local.
  destruct (get l); simpl; now rewrite app_nil_r.
Qed.

Lemma emits_get_local {A : Type} (get : L -> A) : emits P (get_local get).
Proof. intros l w. exists []. simpl. now rewrite app_nil_r. Qed.

Lemma emits_assign (set : L -> L) : emits P (assign set).
Proof. intros l w. exists []. simpl. now rewrite app_nil_r. Qed.

Lemma emits_lift_result {A : Type} (r : Result A) : emits P (@lift_result L A r).
Proof. intros l w. exists []. simpl. now rewrite app_nil_r. Qed.

Lemma emits_emit (e : Event) : P e = true -> emits P (@emit L e).
Proof. intros He l w. exists [e]. simpl. now rewrite He. Qed.

Lemma emits_attempt (r : option exn) (e : Event) :
  P e = true -> emits P (@attempt L r e).
Proof. intros He l w. exists [e]. simpl. now rewrite He. Qed.

Lemma emits_if_truthy {A : Type} (o : option str) (yes : str -> M L A) (no : M L A) :
  (forall s, emits P (yes s)) -> emits P no -> emits P (if_truthy o yes no).
Proof.
  intros Hy Hn. unfold if_truthy. destruct o as [s|]; [|exact Hn].
  destruct (nonempty s); [apply Hy | exact Hn].
Qed.

End Emits.

#[export] Hint Resolve emits_ret emits_read_local emits_get_local emits_assign
  emits_lift_result : emits.

Lemma emits_weaken {L A : Type} (P Q : Event -> bool) (m : M L A) :
  (forall e, P e = true -> Q e = true) -> emits P m -> emits Q m.
Proof.
  intros HPQ Hm l w. destruct (Hm l w) as (evs & H & F).
  exists evs. split; [exact H|]. now apply (forallb_weaken P Q).
Qed.

(** Breaks a goal [emits P m] along the structure of [m]. *)
Ltac emits_step :=
  match goal with
  | |- emits _ (bind _ _) => apply emits_bind; [|intros ?]
  | |- emits _ (try_except _ _ _) => apply emits_try_except; [|intros ?]
  | |- emits _ (try_finally _ _) => apply emits_try_finally
  | |- emits _ (call _ _) => apply emits_call
  | |- emits _ (if_truthy _ _ _) => apply emits_if_truthy; [intros ?|]
  | |- emits _ (for_each _ _) => apply emits_for_each; intros ?
  | |- emits _ (emit _) => apply emits_emit; reflexivity
  | |- emits _ (print _) => apply emits_emit; reflexivity
  | |- emits _ (st _) => apply emits_emit; reflexivity
  | |- emits _ (cursor_close _) => apply emits_emit; reflexivity
  | |- emits _ (connection_close _) => apply emits_emit; reflexivity
  | |- emits _ (attempt _ _) => apply emits_attempt; reflexivity
  | |- emits _ (if ?b then _ else _) => destruct b
  | |- emits _ (match ?o with Some _ => _ | None => _ end) => destruct o
  | |- emits _ _ => solve [auto with emits]
  end.

Section ServiceEmits.

Variable env : Env.
Context {L : Type} (P : Event -> bool).

Lemma emits_bedrock_client :
  (forall r, P (EvClient r) = true) -> emits P (@bedrock_client env L).
Proof.
  intros H l w. unfold bedrock_client.
  exists [EvClient (boto3_client env (count is_EvClient w))].
  simpl. now rewrite H.
Qed.

Lemma emits_client_converse (c : Client) (req : Request) :
  (forall r, P (EvConverse c req r) = true) -> emits P (@client_converse env L c req).
Proof.
  intros H l w. unfold client_converse.
  eexists [_]. simpl. split; [reflexivity|]. now rewrite H.
Qed.

Lemma emits_snowflake_connector_connect :
  (forall r, P (EvConnect r) = true) -> emits P (@snowflake_connector_connect env L).
Proof.
  intros H l w. unfold snowflake_connector_connect.
  eexists [_]. simpl. split; [reflexivity|]. now rewrite H.
Qed.

Lemma emits_cursor_of (conn : Connection) :
  (forall r, P (EvCursor conn r) = true) -> emits P (@cursor_of env L conn).
Proof.
  intros H l w. unfold cursor_of.
  eexists [_]. simpl. split; [reflexivity|]. now rewrite H.
Qed.

Lemma emits_execute (c : Cursor) (stmt : str) :
  (forall r, P (EvExecute c stmt r) = true) -> emits P (@execute env L c stmt).
Proof.
  intros H l w. unfold execute, attempt.
  eexists [_]. simpl. split; [reflexivity|]. now rewrite H.
Qed.

End ServiceEmits.

Section ProgramEmits.

Variable env : Env.

Lemma emits_convert_procedure (sql_code : str) :
  emits model_event (convert_procedure env sql_code).
Proof.
  unfold convert_procedure.
  emits_step; [now apply emits_bedrock_client|].
  emits_step.
  - emits_step; [now apply emits_client_converse | emits_step].
  - emits_step; emits_step.
Qed.

Lemma emits_procedure_error_rtry (connection : Connection) (sql_code error : str) :
  emits model_event (procedure_error_rtry env connection sql_code error).
Proof.
  unfold procedure_error_rtry.
  emits_step; [now apply emits_bedrock_client|].
  emits_step.
  - emits_step; [now apply emits_client_converse | emits_step].
  - emits_step; emits_step.
Qed.

Lemma emits_create_stored_procedure_in_snowflake (connection : Connection)
    (sql_code : str) :
  emits loop_event (create_stored_procedure_in_snowflake env connection sql_code).
Proof.
  unfold create_stored_procedure_in_snowflake.
  emits_step.
  - emits_step.
    + emits_step.
      * emits_step; [now apply emits_cursor_of|].
        emits_step; [emits_step|].
        emits_step; [emits_step|].
        emits_step; [now apply emits_execute | emits_step].
      * emits_step.
        -- emits_step.
           apply (emits_weaken model_event); [exact model_event_loop_event|].
           apply emits_procedure_error_rtry.
        -- emits_step; [|emits_step].
           emits_step; [|emits_step].
           emits_step; [emits_step|].
           emits_step; [now apply emits_execute | emits_step].
    + emits_step; [emits_step | emits_step].
  - emits_step; emits_step.
Qed.

Lemma emits_process_sql_code (sql_code : str) :
  emits model_event (process_sql_code env sql_code).
Proof.
  unfold process_sql_code.
  emits_step; [|emits_step].
  emits_step. apply emits_convert_procedure.
Qed.

Lemma emits_loop_body (uploaded_file : UploadedFile) :
  emits loop_event (loop_body env uploaded_file).
Proof.
  unfold loop_body, converted_files_append, created_successfully_append,
    not_created_files_append.
  emits_step; [emits_step|].
  emits_step.
  { emits_step. apply (emits_weaken model_event); [exact model_event_loop_event|].
    apply emits_process_sql_code. }
  emits_step.
  - emits_step; [emits_step|].
    emits_step; [emits_step|].
    emits_step.
    { emits_step. apply emits_create_stored_procedure_in_snowflake. }
    emits_step; [|emits_step].
    emits_step; emits_step.
  - emits_step; emits_step.
Qed.

Lemma emits_main_loop (uploaded_files : list UploadedFile) :
  emits loop_event (main_loop env uploaded_files).
Proof.
  unfold main_loop. emits_step. apply emits_loop_body.
Qed.

End ProgramEmits.

(* ================================================================== *)
(** ** The two requesters *)

Section Requesters.

Variable env : Env.

Lemma is_ClientError_is_Exception (e : exn) :
  is_ClientError e || is_Exception e = is_Exception e.
Proof. now destruct e. Qed.

Lemma convert_procedure_run (sql_code : str) (l : unit) (w : Trace) :
  convert_procedure env sql_code l w = requester_outcome env (convert_prompt sql_code) w.
Proof.
  destruct l. unfold convert_procedure, requester_outcome.
  unfold bind, bedrock_client, try_except, client_converse, ret, print, emit.
  destruct (boto3_client env (count is_EvClient w)) as [e|]; [reflexivity|].
  rewrite count_snoc. simpl (if is_EvConverse _ then _ else _). rewrite Nat.add_0_r.
  destruct (converse env (count is_EvConverse w) _) as [text|e].
  - now rewrite <- app_assoc.
  - rewrite is_ClientError_is_Exception.
    destruct (is_Exception e); now rewrite <- !app_assoc.
Qed.

Lemma procedure_error_rtry_run (connection : Connection) (sql_code error : str)
    (l : unit) (w : Trace) :
  procedure_error_rtry env connection sql_code error l w
  = requester_outcome env (repair_prompt sql_code error) w.
Proof.
  destruct l. unfold procedure_error_rtry, requester_outcome.
  unfold bind, bedrock_client, try_except, client_converse, ret, print, emit.
  destruct (boto3_client env (count is_EvClient w)) as [e|]; [reflexivity|].
  rewrite count_snoc. simpl (if is_EvConverse _ then _ else _). rewrite Nat.add_0_r.
  destruct (converse env (count is_EvConverse w) _) as [text|e].
  - now rewrite <- app_assoc.
  - rewrite is_ClientError_is_Exception.
    destruct (is_Exception e); now rewrite <- !app_assoc.
Qed.

Lemma process_sql_code_run (sql_code : str) (l : unit) (w : Trace) :
  process_sql_code env sql_code l w = requester_outcome env (convert_prompt sql_code) w.
Proof.
  destruct l. unfold process_sql_code, bind, call, ret.
  rewrite convert_procedure_run.
  destruct (requester_outcome env _ w) as [[[r|e] []] w1]; reflexivity.
Qed.

(** C10. [procedure_error_rtry] never reads its [connection] argument:
    two calls that differ only in the connection return the same result
    and leave the same trace. *)
Theorem procedure_error_rtry_ignores_connection (c1 c2 : Connection)
    (sql_code error : str) (l : unit) (w : Trace) :
  procedure_error_rtry env c1 sql_code error l w
  = procedure_error_rtry env c2 sql_code error l w.
Proof.
  (* both sides are the outcome of the same request on the same trace *)
  rewrite (procedure_error_rtry_run c1), (procedure_error_rtry_run c2).
  reflexivity.
Qed.

End Requesters.

(** C7. Each of the two requesters, taken by itself: when the call of
    [converse] inside [convert_procedure] fails with an error of the
    transport or of the service (any [Exception]), the function prints one
    line that names the model and gives the reason, and returns [None];
    nothing is raised to the caller.  The same holds of
    [procedure_error_rtry], for its own request.  And [None] is also what
    each of them returns, without a printed line, when the reply holds no
    fenced block: the caller gets the same value in both cases. *)
Theorem invocation_failure_is_absent :
  (forall (env : Env) (sql_code : str) (w : Trace) (e : exn),
     is_Exception e = true ->
     boto3_client env (count is_EvClient w) = None ->
     converse env (count is_EvConverse w)
       (converse_request (convert_prompt sql_code)) = Raise e ->
     convert_procedure env sql_code tt w
     = (Ok None, tt,
        w ++ [EvClient None;
              EvConverse (count is_EvClient w)
                (converse_request (convert_prompt sql_code)) (Raise e);
              EvPrint (py "ERROR: Can't invoke '"%string ++ model_id
                       ++ py "'. Reason: "%string ++ str_exn e)]))
  /\ (forall (env : Env) (connection : Connection) (sql_code error : str)
        (w : Trace) (e : exn),
     is_Exception e = true ->
     boto3_client env (count is_EvClient w) = None ->
     converse env (count is_EvConverse w)
       (converse_request (repair_prompt sql_code error)) = Raise e ->
     procedure_error_rtry env connection sql_code error tt w
     = (Ok None, tt,
        w ++ [EvClient None;
              EvConverse (count is_EvClient w)
                (converse_request (repair_prompt sql_code error)) (Raise e);
              EvPrint (py "ERROR: Can't invoke '"%string ++ model_id
                       ++ py "'. Reason: "%string ++ str_exn e)]))
  /\ (forall (env : Env) (sql_code : str) (w : Trace) (text : str),
     boto3_client env (count is_EvClient w) = None ->
     converse env (count is_EvConverse w)
       (converse_request (convert_prompt sql_code)) = Ok text ->
     extract_sql_block text = None ->
     convert_procedure env sql_code tt w
     = (Ok None, tt,
        w ++ [EvClient None;
              EvConverse (count is_EvClient w)
                (converse_request (convert_prompt sql_code)) (Ok text)]))
  /\ (forall (env : Env) (connection : Connection) (sql_code error : str)
        (w : Trace) (text : str),
     boto3_client env (count is_EvClient w) = None ->
     converse env (count is_EvConverse w)
       (converse_request (repair_prompt sql_code error)) = Ok text ->
     extract_sql_block text = None ->
     procedure_error_rtry env connection sql_code error tt w
     = (Ok None, tt,
        w ++ [EvClient None;
              EvConverse (count is_EvClient w)
                (converse_request (repair_prompt sql_code error)) (Ok text)])).
Proof.
  split; [|split; [|split]].
  - intros env sql_code w e He Hc Hv.
    rewrite convert_procedure_run. unfold requester_outcome.
    now rewrite Hc, Hv, He.
  - intros env connection sql_code error w e He Hc Hv.
    rewrite procedure_error_rtry_run. unfold requester_outcome.
    now rewrite Hc, Hv, He.
  - intros env sql_code w text Hc Hv Hx.
    rewrite convert_procedure_run. unfold requester_outcome.
    now rewrite Hc, Hv, Hx.
  - intros env connection sql_code error w text Hc Hv Hx.
    rewrite procedure_error_rtry_run. unfold requester_outcome.
    now rewrite Hc, Hv, Hx.
Qed.

(* ================================================================== *)
(** ** The Registration Attempter *)

Section Registration.

Variable env : Env.

(** The run in which the first submission reports a programming error
    and the repair call hands back a body that is not empty: the body is
    submitted once more on the same handle, and the verdict is that of
    this second submission. *)
Lemma registration_retry_run (connection : Connection) (body : str)
    (w : Trace) (m1 resp fixed : str) :
  connection_cursor env (count is_EvCursor w) connection = None ->
  cursor_execute env (count is_EvExecute w) body = Some (ProgrammingError m1) ->
  boto3_client env (count is_EvClient w) = None ->
  converse env (count is_EvConverse w) (converse_request (repair_prompt body m1))
    = Ok resp ->
  extract_sql_block resp = Some fixed ->
  fixed <> [] ->
  create_stored_procedure_in_snowflake env connection body None w
  = (match cursor_execute env (S (count is_EvExecute w)) fixed with
     | None => Ok true
     | Some e2 => if is_ProgrammingError e2 then Ok false else Raise e2
     end,
     Some (count is_EvCursor w),
     w ++ [EvCursor connection None;
           EvExecute (count is_EvCursor w) body (Some (ProgrammingError m1));
           EvClient None;
           EvConverse (count is_EvClient w)
             (converse_request (repair_prompt body m1)) (Ok resp);
           EvExecute (count is_EvCursor w) fixed
             (cursor_execute env (S (count is_EvExecute w)) fixed);
           EvCursorClose (count is_EvCursor w)]).
Proof.
  intros Hcur H1 Hcli Hconv Hext Hne.
  unfold create_stored_procedure_in_snowflake.
  unfold cursor_of, execute, cursor_close. unfold_py.
  rewrite Hcur.
  counts. rewrite H1.
  cbn [is_ProgrammingError str_exn].
  rewrite procedure_error_rtry_run. unfold requester_outcome.
  counts. rewrite Hcli, Hconv, Hext.
  unfold if_truthy. destruct fixed as [|ch fixed']; [congruence|].
  cbn [nonempty]. counts.
  destruct (cursor_execute env (S (count is_EvExecute w)) (ch :: fixed')) as [e2|].
  - destruct (is_ProgrammingError e2); now rewrite <- !app_assoc.
  - now rewrite <- !app_assoc.
Qed.

(** C2 (amended). Let every submission report a programming error and
    let the repair call return a corrected body that is not empty.  Then
    the Registration Attempter makes exactly two submissions, the
    translated body and then the corrected one, and exactly one repair
    request, and reports Failed; nothing is tried after that. *)
Theorem registration_retries_once (connection : Connection) (body : str)
    (w : Trace) (resp fixed : str) :
  connection_cursor env (count is_EvCursor w) connection = None ->
  (forall k stmt, exists m, cursor_execute env k stmt = Some (ProgrammingError m)) ->
  boto3_client env (count is_EvClient w) = None ->
  (forall m, cursor_execute env (count is_EvExecute w) body = Some (ProgrammingError m) ->
     converse env (count is_EvConverse w) (converse_request (repair_prompt body m))
     = Ok resp) ->
  extract_sql_block resp = Some fixed ->
  fixed <> [] ->
  fst (fst (create_stored_procedure_in_snowflake env connection body None w))
    = Ok false
  /\ count is_EvExecute
       (snd (create_stored_procedure_in_snowflake env connection body None w))
     = (count is_EvExecute w + 2)%nat
  /\ count is_EvConverse
       (snd (create_stored_procedure_in_snowflake env connection body None w))
     = (count is_EvConverse w + 1)%nat
  /\ submissions
       (snd (create_stored_procedure_in_snowflake env connection body None w))
     = submissions w ++ [body; fixed].
Proof.
  intros Hcur Hall Hcli Hconv Hext Hne.
  destruct (Hall (count is_EvExecute w) body) as [m1 H1].
  destruct (Hall (S (count is_EvExecute w)) fixed) as [m2 H2].
  rewrite (registration_retry_run connection body w m1 resp fixed
             Hcur H1 Hcli (Hconv m1 H1) Hext Hne).
  rewrite H2. cbn [fst snd is_ProgrammingError].
  repeat split.
  - counts. now rewrite Nat.add_succ_r, Nat.add_1_r.
  - now counts.
  - now rewrite submissions_app.
Qed.

(** C5 (amended). In every call of the Registration Attempter in which
    the statement handle is acquired, that handle is released exactly
    once, as the last thing the call does, on every exit path: success,
    failure, or an error that propagates.  Between the acquisition and the
    release there are only submissions on this handle and the traffic of
    the repair request: the retried submission reuses the handle, which
    stays open between the first submission and the retry. *)
Theorem statement_handle_released_once (connection : Connection) (sql_code : str) (w : Trace) :
  connection_cursor env (count is_EvCursor w) connection = None ->
  exists mid,
    snd (create_stored_procedure_in_snowflake env connection sql_code None w)
    = w ++ EvCursor connection None :: mid ++ [EvCursorClose (count is_EvCursor w)]
    /\ forallb (within_attempt (count is_EvCursor w)) mid = true.
Proof.
  intros Hcur.
  unfold create_stored_procedure_in_snowflake.
  unfold cursor_of, execute, cursor_close. unfold_py.
  rewrite Hcur. counts.
  set (c := count is_EvCursor w).
  destruct (cursor_execute env (count is_EvExecute w) sql_code) as [e|].
  2:{ exists [EvExecute c sql_code None]. split.
      - cbn. now rewrite <- !app_assoc.
      - cbn. now rewrite Nat.eqb_refl. }
  destruct (is_ProgrammingError e).
  2:{ exists [EvExecute c sql_code (Some e)]. split.
      - cbn. now rewrite <- !app_assoc.
      - cbn. now rewrite Nat.eqb_refl. }
  match goal with
  | |- context [procedure_error_rtry env connection sql_code ?err tt ?w1] =>
      destruct (emits_procedure_error_rtry env connection sql_code err tt w1)
        as (evs & Hevs & Fevs);
      destruct (procedure_error_rtry env connection sql_code err tt w1)
        as [[r0 l0] w1'];
      simpl in Hevs; subst w1'
  end.
  assert (Fmid : forallb (within_attempt c) evs = true).
  { apply (forallb_weaken model_event); [|exact Fevs]. now intros []. }
  destruct r0 as [[corrected|]|e0].
  - unfold if_truthy. destruct (nonempty corrected).
    + destruct (cursor_execute env _ corrected) as [e2|].
      * exists (EvExecute c sql_code (Some e) :: evs
                  ++ [EvExecute c corrected (Some e2)]). split.
        -- destruct (is_ProgrammingError e2); cbn; now rewrite <- !app_assoc.
        -- cbn. rewrite forallb_app, Fmid. cbn. now rewrite Nat.eqb_refl.
      * exists (EvExecute c sql_code (Some e) :: evs
                  ++ [EvExecute c corrected None]). split.
        -- cbn. now rewrite <- !app_assoc.
        -- cbn. rewrite forallb_app, Fmid. cbn. now rewrite Nat.eqb_refl.
    + exists (EvExecute c sql_code (Some e) :: evs). split.
      * cbn. now rewrite <- !app_assoc.
      * cbn. now rewrite Nat.eqb_refl.
  - exists (EvExecute c sql_code (Some e) :: evs). split.
    + cbn. now rewrite <- !app_assoc.
    + cbn. now rewrite Nat.eqb_refl.
  - exists (EvExecute c sql_code (Some e) :: evs). split.
    + cbn. now rewrite <- !app_assoc.
    + cbn. now rewrite Nat.eqb_refl.
Qed.

End Registration.

(* ================================================================== *)
(** ** The Batch Orchestrator *)

Section Orchestrator.

Variable env : Env.

Local Abbreviation basename f := (os_path_basename env (name f)).

(** One iteration records the name in exactly one of the two lists, adds
    the archive entry of a translated script, and leaves the connection
    alone. *)
Lemma loop_body_step (f : UploadedFile) (l l' : MainLocals) (w w' : Trace)
    (it : Iteration) :
  loop_body env f l w = (Ok it, l', w') ->
  created_successfully l'
    = created_successfully l ++ (if verdict it then [basename f] else [])
  /\ not_created_files l'
    = not_created_files l ++ (if verdict it then [] else [basename f])
  /\ converted_files l' = converted_files l ++ archive_entry env f it
  /\ (exists sql_code,
        read_decode f = Ok sql_code /\
        fst (fst (process_sql_code env sql_code tt w)) = Ok (converted_code it))
  /\ (registered it = None <-> truthy (converted_code it) = false).
Proof.
  unfold loop_body, converted_files_append, created_successfully_append,
    not_created_files_append.
  unfold_py.
  destruct (read_decode f) as [sql_code|e]; [|discriminate].
  destruct (process_sql_code env sql_code tt w) as [[[o|e] u] w1] eqn:Hp;
    [|discriminate].
  assert (Hsql : exists s, Ok sql_code = Ok s /\
                   fst (fst (process_sql_code env s tt w)) = Ok o)
    by (exists sql_code; now rewrite Hp).
  clear Hp.
  unfold archive_entry, if_truthy, verdict.
  destruct o as [code|].
  2:{ intros H; injection H as <- <- <-. cbn. rewrite !app_nil_r.
      repeat split; auto. }
  destruct (nonempty code) eqn:Hne.
  2:{ intros H; injection H as <- <- <-. cbn. rewrite Hne, !app_nil_r.
      repeat split; auto. }
  cbn [snowflake_connection set_converted_files].
  destruct (snowflake_connection l) as [conn|]; [|discriminate].
  destruct (create_stored_procedure_in_snowflake env conn code None w1)
    as [[[b|e] lc] w2]; [|discriminate].
  destruct b; intros H; injection H as <- <- <-; cbn; rewrite Hne, ?app_nil_r;
    repeat split; auto; discriminate.
Qed.

(** Whatever happens in an iteration, the local [snowflake_connection]
    stays bound to the same connection. *)
Lemma loop_body_keeps_connection (f : UploadedFile) (l : MainLocals) (w : Trace) :
  snowflake_connection (snd (fst (loop_body env f l w))) = snowflake_connection l.
Proof.
  unfold loop_body, converted_files_append, created_successfully_append,
    not_created_files_append.
  unfold_py.
  destruct (read_decode f) as [sql_code|e]; [|reflexivity].
  destruct (process_sql_code env sql_code tt w) as [[[o|e] u] w1]; [|reflexivity].
  unfold if_truthy.
  destruct o as [code|]; [|reflexivity].
  destruct (nonempty code); [|reflexivity].
  cbn [snowflake_connection set_converted_files].
  destruct (snowflake_connection l) as [conn|] eqn:E; [|now cbn].
  destruct (create_stored_procedure_in_snowflake env conn code None w1)
    as [[[b|e] lc] w2]; [|now cbn].
  destruct b; now cbn.
Qed.

Lemma main_loop_keeps_connection (files : list UploadedFile) (l : MainLocals)
    (w : Trace) :
  snowflake_connection (snd (fst (main_loop env files l w))) = snowflake_connection l.
Proof.
  unfold main_loop. revert l w.
  induction files as [|f fs IH]; intros l w; [reflexivity|].
  cbn [for_each]. unfold bind at 1.
  pose proof (loop_body_keeps_connection f l w) as Hf.
  destruct (loop_body env f l w) as [[[it|e] l1] w1]; cbn in Hf; [|exact Hf].
  unfold bind at 1.
  pose proof (IH l1 w1) as Hr.
  destruct (for_each fs (loop_body env) l1 w1) as [[[its|e] l2] w2]; cbn in Hr |- *;
    congruence.
Qed.

Lemma main_loop_lists (files : list UploadedFile) :
  forall (l l' : MainLocals) (w w' : Trace) (its : list Iteration),
  main_loop env files l w = (Ok its, l', w') ->
  length its = length files
  /\ created_successfully l'
     = created_successfully l ++ select (map verdict its) (names env files)
  /\ not_created_files l'
     = not_created_files l
       ++ select (map (fun it => negb (verdict it)) its) (names env files)
  /\ converted_files l' = converted_files l ++ archive_entries env files its
  /\ translated_by env files its l w.
Proof.
  unfold main_loop.
  induction files as [|f fs IH]; intros l l' w w' its.
  - cbn. intros H; injection H as <- <- <-. cbn. now rewrite !app_nil_r.
  - cbn [for_each]. unfold bind at 1.
    destruct (loop_body env f l w) as [[[it|e] l1] w1] eqn:Hf; [|discriminate].
    unfold bind at 1.
    destruct (for_each fs (loop_body env) l1 w1) as [[[its'|e] l2] w2] eqn:Hr;
      [|discriminate].
    unfold ret. intros H; injection H as <- <- <-.
    destruct (loop_body_step _ _ _ _ _ _ Hf) as (Hc & Hn & Ha & Ht & Hreg).
    destruct (IH _ _ _ _ _ Hr) as (Hlen & Hc' & Hn' & Ha' & Ht').
    repeat split.
    + cbn. now rewrite Hlen.
    + rewrite Hc', Hc. cbn. destruct (verdict it); cbn; now rewrite <- app_assoc.
    + rewrite Hn', Hn. cbn. destruct (verdict it); cbn; now rewrite <- app_assoc.
    + rewrite Ha', Ha. unfold archive_entries. cbn. now rewrite <- app_assoc.
    + exact Ht.
    + apply Hreg.
    + apply Hreg.
    + rewrite Hf. exact Ht'.
Qed.

(** The loop of [create_zip_file] writes the entries in order and stops
    at the first one that [writestr] rejects; it leaves the trace alone. *)
Lemma writestr_loop_run (files : list (str * str)) :
  forall (zip_file : Zip) (w : Trace),
  match for_each files (fun entry => writestr env (fst entry) (snd entry)) zip_file w with
  | (r, zip_file', w') =>
      w' = w
      /\ match first_rejected env files with
         | None => (exists us, r = Ok us) /\ zip_file' = zip_file ++ files
         | Some e => r = Raise e
         end
  end.
Proof.
  induction files as [|entry files IH]; intros zip_file w.
  - cbn. rewrite app_nil_r. eauto.
  - cbn [for_each first_rejected]. unfold bind at 1. unfold writestr at 1.
    destruct (zipfile_writestr env (fst entry) (snd entry)) as [e|]; [now split|].
    specialize (IH (zip_file ++ [(fst entry, snd entry)]) w).
    unfold bind at 1.
    destruct (for_each files (fun entry0 => writestr env (fst entry0) (snd entry0))
                (zip_file ++ [(fst entry, snd entry)]) w) as [[r1 z1] w1].
    destruct IH as [-> IH].
    destruct (first_rejected env files) as [e|].
    + subst r1. now split.
    + destruct IH as [[us ->] ->]. unfold ret. split; [reflexivity|]. split; [eauto|].
      destruct entry. now rewrite <- app_assoc.
Qed.

Lemma create_zip_file_run (files : list (str * str)) (zip_file : Zip) (w : Trace) :
  fst (fst (create_zip_file env files zip_file w))
    = match first_rejected env files with
      | None => Ok (zip_file ++ files)
      | Some e => Raise e
      end
  /\ snd (create_zip_file env files zip_file w) = w.
Proof.
  unfold create_zip_file. unfold bind at 1 2.
  pose proof (writestr_loop_run files zip_file w) as H.
  destruct (for_each files (fun entry => writestr env (fst entry) (snd entry))
              zip_file w) as [[r1 z1] w1].
  destruct H as [-> H].
  destruct (first_rejected env files) as [e|].
  - subst r1. now split.
  - destruct H as [[us ->] ->]. now split.
Qed.

Lemma call_create_zip_file {L : Type} (files : list (str * str)) (l : L) (w : Trace) :
  call [] (create_zip_file env files) l w
  = (match first_rejected env files with
     | None => Ok files
     | Some e => Raise e
     end, l, w).
Proof.
  unfold call. destruct (create_zip_file_run files [] w) as [H1 H2].
  destruct (create_zip_file env files [] w) as [[r z] w1]. cbn in H1, H2.
  now subst.
Qed.

(** A run of [main] on a non-empty batch, once Convert is clicked. *)
Lemma main_run (f : UploadedFile) (fs : list UploadedFile) :
  run (main env (f :: fs) true) = main_outcome env (f :: fs).
Proof.
  unfold run, main, main_body, main_outcome, call.
  unfold bind, st, emit, assign, try_finally, try_except,
    snowflake_connector_connect, read_local, connection_close, emit.
  cbn [app]. counts.
  destruct (snowflake_connect env 0) as [e|].
  - destruct (is_Exception e); reflexivity.
  - change (set_snowflake_connection 0%nat
              (set_not_created_files []
                 (set_created_successfully [] (set_converted_files [] main_entry))))
      with loop_entry.
    change [EvSt (StTitle (py "MS SQL Server to Snowflake Procedure Converter"%string));
            EvSt (StFileUploader (py "Upload SQL files"%string));
            EvSt (StButton (py "Convert"%string)); EvConnect None]
      with loop_start.
    pose proof (main_loop_keeps_connection (f :: fs) loop_entry loop_start) as Hk.
    destruct (main_loop env (f :: fs) loop_entry loop_start) as [[[its|e] l1] w1];
      cbn [fst snd] in Hk; change (snowflake_connection loop_entry) with (Some 0%nat) in Hk.
    + unfold display_results, bind, st, emit, get_local.
      rewrite call_create_zip_file.
      destruct (first_rejected env (converted_files l1)) as [e|].
      * destruct (is_Exception e); rewrite Hk; unfold display_lists;
          now rewrite <- !app_assoc.
      * rewrite Hk. unfold display_events, display_lists. now rewrite <- !app_assoc.
    + destruct (is_Exception e); rewrite Hk; [now rewrite <- !app_assoc | reflexivity].
Qed.

Lemma written_loop_start : written loop_start = [].
Proof. reflexivity. Qed.

Lemma downloads_loop_start : downloads loop_start = [].
Proof. reflexivity. Qed.

Lemma written_display_lists (l : MainLocals) :
  written (display_lists l) = [created_successfully l; not_created_files l].
Proof. reflexivity. Qed.

Lemma downloads_display_lists (l : MainLocals) : downloads (display_lists l) = [].
Proof. reflexivity. Qed.

(** A run shows a report only when the connection was established, the
    loop ran to its end and every entry of the archive was written; the
    report then shows the three lists of [main], and the run ends with
    the release of the connection. *)
Lemma reported_run (files : list UploadedFile) (rep : BatchReport) :
  report_of (snd (run (main env files true))) = Some rep ->
  exists its l1 w1,
    main_loop env files loop_entry loop_start = (Ok its, l1, w1)
    /\ first_rejected env (converted_files l1) = None
    /\ run (main env files true)
       = (Ok tt, w1 ++ display_events l1 ++ [EvConnClose 0%nat])
    /\ rep = {| succeeded := created_successfully l1;
                failed := not_created_files l1;
                archive := converted_files l1 |}.
Proof.
  destruct files as [|f fs]; [intros H; vm_compute in H; discriminate|].
  rewrite main_run. unfold main_outcome.
  destruct (snowflake_connect env 0) as [e|].
  { destruct (is_Exception e); intros H; vm_compute in H; discriminate. }
  destruct (emits_main_loop env (f :: fs) loop_entry loop_start) as (evs & Hw & Fe).
  destruct (main_loop env (f :: fs) loop_entry loop_start) as [[[its|e] l1] w1];
    cbn [snd] in Hw; subst w1.
  - destruct (first_rejected env (converted_files l1)) as [e|] eqn:Hrej.
    + unfold report_of.
      destruct (is_Exception e); cbn [snd];
        rewrite !written_app, !downloads_app, written_loop_start,
          downloads_loop_start, (written_loop_events _ Fe),
          (downloads_loop_events _ Fe), downloads_display_lists;
        cbn; discriminate.
    + unfold report_of. cbn [snd]. unfold display_events.
      rewrite !written_app, !downloads_app, written_loop_start, downloads_loop_start,
        (written_loop_events _ Fe), (downloads_loop_events _ Fe),
        written_display_lists, downloads_display_lists.
      cbn. intros H; injection H as <-.
      exists its, l1, (loop_start ++ evs).
      split; [reflexivity|]. split; [exact Hrej|]. split; reflexivity.
  - unfold report_of.
    destruct (is_Exception e); cbn [snd];
      rewrite !written_app, !downloads_app, written_loop_start, downloads_loop_start,
        (written_loop_events _ Fe), (downloads_loop_events _ Fe);
      cbn; discriminate.
Qed.

Lemma report_of_main (files : list UploadedFile) (rep : BatchReport) :
  report_of (snd (run (main env files true))) = Some rep ->
  exists its l1 w1,
    main_loop env files loop_entry loop_start = (Ok its, l1, w1)
    /\ succeeded rep = created_successfully l1
    /\ failed rep = not_created_files l1
    /\ archive rep = converted_files l1.
Proof.
  intros H. destruct (reported_run _ _ H) as (its & l1 & w1 & Hl & _ & _ & ->).
  exists its, l1, w1. auto.
Qed.

Lemma select_partition {A : Type} (keep : list bool) (xs : list A) :
  length keep = length xs ->
  Permutation (select keep xs ++ select (map negb keep) xs) xs.
Proof.
  revert xs; induction keep as [|k keep IH]; intros [|x xs] H; try discriminate.
  - constructor.
  - injection H as H. cbn. destruct k; cbn.
    + constructor. now apply IH.
    + apply Permutation_sym, Permutation_cons_app, Permutation_sym. now apply IH.
Qed.



(** C3 (amended). In every batch run that writes its archive and offers
    it for download, the archive holds, in input order, one entry per
    Script whose Translation Requester call returned a body that is
    neither absent nor empty, under the Script's base name and with that
    body, and no other entry; the verdict of the registration plays no
    part. *)
Theorem archive_holds_translations (files : list UploadedFile) (rep : BatchReport) :
  report_of (snd (run (main env files true))) = Some rep ->
  exists its : list Iteration,
    length its = length files
    /\ translated_by env files its loop_entry loop_start
    /\ archive rep
       = concat (map (fun p =>
                        match converted_code (snd p) with
                        | Some (c :: code) =>
                            [(os_path_basename env (name (fst p)), c :: code)]
                        | _ => []
                        end)
                     (combine files its)).
Proof.
  intros H.
  destruct (report_of_main _ _ H) as (its & l1 & w1 & Hloop & _ & _ & Ha).
  destruct (main_loop_lists _ _ _ _ _ _ Hloop) as (Hlen & _ & _ & Hcf & Ht).
  exists its. repeat split; [exact Hlen | exact Ht |].
  rewrite Ha, Hcf. cbn. unfold archive_entries. f_equal.
  apply map_ext. intros [f it]. unfold archive_entry, if_truthy. cbn.
  destruct (converted_code it) as [[|c code]|]; reflexivity.
Qed.

Lemma filter_loop_events (evs : Trace) :
  forallb loop_event evs = true -> filter connection_event evs = [].
Proof.
  induction evs as [|e evs IH]; cbn; intros H; [reflexivity|].
  apply andb_true_iff in H as [He Hr].
  destruct e; try discriminate; now apply IH.
Qed.

(** C6 (amended). In every batch run in which the connection is
    established, the connection is acquired exactly once and released
    exactly once, and the release is the last thing the run does, on every
    control path: whether the loop ends or an error stops it, and however
    many scripts succeeded or failed. *)
Theorem connection_acquired_and_released_once (f : UploadedFile)
    (fs : list UploadedFile) :
  snowflake_connect env 0 = None ->
  filter connection_event (snd (run (main env (f :: fs) true)))
    = [EvConnect None; EvConnClose 0%nat]
  /\ exists before, snd (run (main env (f :: fs) true)) = before ++ [EvConnClose 0%nat].
Proof.
  intros Hc. rewrite main_run. unfold main_outcome. rewrite Hc.
  destruct (emits_main_loop env (f :: fs) loop_entry loop_start) as (evs & Hw & Fe).
  pose proof (filter_loop_events _ Fe) as Hfe.
  destruct (main_loop env (f :: fs) loop_entry loop_start) as [[[its|e] l1] w1];
    cbn [snd] in Hw; subst w1.
  - destruct (first_rejected env (converted_files l1)) as [e|].
    + destruct (is_Exception e); cbn [snd]; split.
      * rewrite !filter_app, Hfe. reflexivity.
      * exists ((loop_start ++ evs) ++ display_lists l1
                  ++ [EvSt (StError (py "Failed to connect to Snowflake: "%string
                                     ++ str_exn e))]).
        now rewrite <- !app_assoc.
      * rewrite !filter_app, Hfe. reflexivity.
      * exists ((loop_start ++ evs) ++ display_lists l1). now rewrite <- !app_assoc.
    + cbn [snd]. split.
      * rewrite !filter_app, Hfe. reflexivity.
      * exists ((loop_start ++ evs) ++ display_events l1). now rewrite <- !app_assoc.
  - destruct (is_Exception e); cbn [snd]; split.
    + rewrite !filter_app, Hfe. reflexivity.
    + exists ((loop_start ++ evs)
                ++ [EvSt (StError (py "Failed to connect to Snowflake: "%string
                                   ++ str_exn e))]).
      now rewrite <- !app_assoc.
    + rewrite !filter_app, Hfe. reflexivity.
    + now exists (loop_start ++ evs).
Qed.

(** An iteration whose translation is a body that is not empty and whose
    registration returns a verdict. *)
Lemma loop_body_registered (f : UploadedFile) (l : MainLocals) (w w1 w2 : Trace)
    (sql_code code : str) (conn : Connection) (b : bool) (lc : option Cursor) :
  read_decode f = Ok sql_code ->
  requester_outcome env (convert_prompt sql_code) w = (Ok (Some code), tt, w1) ->
  code <> [] ->
  snowflake_connection l = Some conn ->
  create_stored_procedure_in_snowflake env conn code None w1 = (Ok b, lc, w2) ->
  loop_body env f l w
  = (Ok {| converted_code := Some code; registered := Some b |},
     (if b
      then set_created_successfully (created_successfully l ++ [basename f])
      else set_not_created_files (not_created_files l ++ [basename f]))
       (set_converted_files (converted_files l ++ [(basename f, code)]) l),
     w2).
Proof.
  intros Hd Hp Hne Hc Hr.
  unfold loop_body, converted_files_append, created_successfully_append,
    not_created_files_append.
  unfold_py.
  rewrite Hd, process_sql_code_run, Hp.
  unfold if_truthy. destruct code as [|ch code']; [congruence|].
  cbn [nonempty snowflake_connection set_converted_files].
  rewrite Hc, Hr. now destruct b.
Qed.

(** An iteration whose translation is absent or empty. *)
Lemma loop_body_untranslated (f : UploadedFile) (l : MainLocals) (w w1 : Trace)
    (sql_code : str) (o : option str) :
  read_decode f = Ok sql_code ->
  requester_outcome env (convert_prompt sql_code) w = (Ok o, tt, w1) ->
  truthy o = false ->
  loop_body env f l w
  = (Ok {| converted_code := o; registered := None |},
     set_not_created_files (not_created_files l ++ [basename f]) l,
     w1).
Proof.
  intros Hd Hp Ht.
  unfold loop_body, not_created_files_append.
  unfold_py.
  rewrite Hd, process_sql_code_run, Hp.
  unfold if_truthy. destruct o as [[|ch code]|]; try discriminate; reflexivity.
Qed.

(** The loop over a batch, one iteration and then the others. *)
Lemma main_loop_cons (f : UploadedFile) (fs : list UploadedFile) (l : MainLocals)
    (w : Trace) :
  main_loop env (f :: fs) l w
  = match loop_body env f l w with
    | (Ok it, l1, w1) =>
        match main_loop env fs l1 w1 with
        | (Ok its, l2, w2) => (Ok (it :: its), l2, w2)
        | (Raise e, l2, w2) => (Raise e, l2, w2)
        end
    | (Raise e, l1, w1) => (Raise e, l1, w1)
    end.
Proof.
  unfold main_loop. cbn [for_each]. unfold bind, ret.
  destruct (loop_body env f l w) as [[[it|e] l1] w1]; [|reflexivity].
  now destruct (for_each fs (loop_body env) l1 w1) as [[[its|e] l2] w2].
Qed.

(** The loop over a batch in two parts. *)
Lemma main_loop_app (xs ys : list UploadedFile) :
  forall (l : MainLocals) (w : Trace),
  main_loop env (xs ++ ys) l w
  = match main_loop env xs l w with
    | (Ok bs, l1, w1) =>
        match main_loop env ys l1 w1 with
        | (Ok cs, l2, w2) => (Ok (bs ++ cs), l2, w2)
        | (Raise e, l2, w2) => (Raise e, l2, w2)
        end
    | (Raise e, l1, w1) => (Raise e, l1, w1)
    end.
Proof.
  unfold main_loop.
  induction xs as [|x xs IH]; intros l w; cbn [app for_each].
  - unfold ret.
    now destruct (for_each ys (loop_body env) l w) as [[[cs|e] l2] w2].
  - unfold bind, ret.
    destruct (loop_body env x l w) as [[[it|e] l1] w1]; [|reflexivity].
    rewrite IH.
    destruct (for_each xs (loop_body env) l1 w1) as [[[bs|e] l2] w2]; [|reflexivity].
    now destruct (for_each ys (loop_body env) l2 w2) as [[[cs|e] l3] w3].
Qed.



End Orchestrator.

(* ================================================================== *)
(** ** Empty translations *)

(** C9. When the fenced block of the model's reply holds nothing but
    whitespace, the translated body is the empty string, and the
    orchestrator treats the Script as it treats one whose translation is
    absent ([env0] is a run whose reply holds no block): the name goes to
    the Failed list, no archive entry is added, and nothing is sent to the
    database.  The test is the truth value of the result, not only its
    absence. *)
Theorem whitespace_only_block_is_failure (env env0 : Env) (f : UploadedFile)
    (l : MainLocals) (w : Trace) (sql_code pre ws post text0 : str) :
  read_decode f = Ok sql_code ->
  first_at fence_sql (pre ++ fence_sql ++ ws ++ fence ++ post) pre ->
  forallb isspace ws = true ->
  boto3_client env (count is_EvClient w) = None ->
  converse env (count is_EvConverse w) (converse_request (convert_prompt sql_code))
    = Ok (pre ++ fence_sql ++ ws ++ fence ++ post) ->
  os_path_basename env0 = os_path_basename env ->
  boto3_client env0 (count is_EvClient w) = None ->
  converse env0 (count is_EvConverse w) (converse_request (convert_prompt sql_code))
    = Ok text0 ->
  extract_sql_block text0 = None ->
  extract_sql_block (pre ++ fence_sql ++ ws ++ fence ++ post) = Some []
  /\ loop_body env f l w
     = (Ok {| converted_code := Some []; registered := None |},
        set_not_created_files (not_created_files l ++ [os_path_basename env (name f)]) l,
        w ++ [EvClient None;
              EvConverse (count is_EvClient w)
                (converse_request (convert_prompt sql_code))
                (Ok (pre ++ fence_sql ++ ws ++ fence ++ post))])
  /\ loop_body env0 f l w
     = (Ok {| converted_code := None; registered := None |},
        set_not_created_files (not_created_files l ++ [os_path_basename env (name f)]) l,
        w ++ [EvClient None;
              EvConverse (count is_EvClient w)
                (converse_request (convert_prompt sql_code)) (Ok text0)]).
Proof.
  intros Hd Hfirst Hws Hc Hv Hbn Hc0 Hv0 Hx0.
  assert (Hx : extract_sql_block (pre ++ fence_sql ++ ws ++ fence ++ post) = Some []).
  { apply (ResponseExtractor_functional (pre ++ fence_sql ++ ws ++ fence ++ post));
      [apply extract_sql_block_sound|].
    apply (RE_block _ pre ws post []); [reflexivity | exact Hfirst | |].
    - now apply first_at_after_whitespace.
    - rewrite <- (strip_whitespace ws Hws). apply strip_trimmed. }
  split; [exact Hx|split].
  - apply (loop_body_untranslated env f l w _ sql_code (Some [])); [exact Hd | | reflexivity].
    unfold requester_outcome. now rewrite Hc, Hv, Hx.
  - rewrite <- Hbn.
    apply (loop_body_untranslated env0 f l w _ sql_code None); [exact Hd | | reflexivity].
    unfold requester_outcome. now rewrite Hc0, Hv0, Hx0.
Qed.


(* ================================================================== *)
(** ** Runs that reach the report *)

Section Completion.

Variable env : Env.
Hypothesis coop : Cooperative env.

Lemma requester_returns (user_message : str) (w : Trace) :
  exists o w1, requester_outcome env user_message w = (Ok o, tt, w1).
Proof.
  unfold requester_outcome. rewrite (coop_client env coop).
  destruct (converse env (count is_EvConverse w) (converse_request user_message))
    as [text|e] eqn:E.
  - eauto.
  - rewrite (coop_converse env coop _ _ _ E). eauto.
Qed.

Lemma registration_returns (connection : Connection) (sql_code : str) (w : Trace) :
  exists b lc w1,
    create_stored_procedure_in_snowflake env connection sql_code None w
    = (Ok b, lc, w1).
Proof.
  unfold create_stored_procedure_in_snowflake.
  unfold cursor_of, execute, cursor_close. unfold_py.
  rewrite (coop_cursor env coop). counts.
  destruct (cursor_execute env (count is_EvExecute w) sql_code) as [e|] eqn:E1;
    [|eauto].
  rewrite (coop_execute env coop _ _ _ E1).
  rewrite procedure_error_rtry_run.
  match goal with
  | |- context [requester_outcome env ?p ?w0] =>
      destruct (requester_returns p w0) as (o & w1 & ->)
  end.
  unfold if_truthy. destruct o as [corrected|]; [|eauto].
  destruct (nonempty corrected); [|eauto].
  destruct (cursor_execute env (count is_EvExecute w1) corrected) as [e2|] eqn:E2;
    [|eauto].
  rewrite (coop_execute env coop _ _ _ E2). eauto.
Qed.

Lemma loop_body_returns (f : UploadedFile) (l : MainLocals) (w : Trace)
    (conn : Connection) :
  decodes f -> snowflake_connection l = Some conn ->
  exists it l1 w1, loop_body env f l w = (Ok it, l1, w1).
Proof.
  intros [sql_code Hd] Hc.
  destruct (requester_returns (convert_prompt sql_code) w) as (o & w1 & Hp).
  destruct (truthy o) eqn:Ht.
  - destruct o as [[|ch code]|]; try discriminate.
    destruct (registration_returns conn (ch :: code) w1) as (b & lc & w2 & Hr).
    rewrite (loop_body_registered env f l w w1 w2 sql_code (ch :: code) conn b lc
               Hd Hp ltac:(discriminate) Hc Hr).
    eauto.
  - rewrite (loop_body_untranslated env f l w w1 sql_code o Hd Hp Ht). eauto.
Qed.





End Completion.

(* ================================================================== *)
(** ** More on the extractor: trimming, and replies without stray backquotes *)

Section ExtractorShape.

(** A marker that begins with a character absent from what precedes it
    has its first occurrence right there. *)
Lemma first_at_no_head (h : N) (sub a b : str) :
  ~ In h a -> first_at (h :: sub) (a ++ (h :: sub) ++ b) a.
Proof.
  intros Hna. split; [now exists b|].
  intros a' b' H.
  destruct (Nat.le_gt_cases (length a) (length a')) as [Hle|Hlt]; [exact Hle|].
  exfalso. apply Hna.
  assert (H1 : nth_error (a ++ (h :: sub) ++ b) (length a') = Some h).
  { rewrite H, nth_error_app2, Nat.sub_diag by lia. reflexivity. }
  rewrite nth_error_app1 in H1 by exact Hlt.
  exact (nth_error_In _ _ H1).
Qed.

(** A reply whose prose and whose block hold no backquote of their own:
    the extractor returns the content of the block, trimmed (the content
    without the whitespace around it), whatever follows the closing
    marker. *)
Theorem extract_block_without_backquotes (pre inner post : str) :
  ~ In 96%N pre ->
  ~ In 96%N inner ->
  exists body,
    extract_sql_block (pre ++ fence_sql ++ inner ++ fence ++ post) = Some body
    /\ Trimmed inner body.
Proof.
  intros Hpre Hinner.
  exists (strip inner). split; [|apply strip_trimmed].
  apply (ResponseExtractor_functional (pre ++ fence_sql ++ inner ++ fence ++ post));
    [apply extract_sql_block_sound|].
  apply (RE_block _ pre inner post); [reflexivity | | |].
  - exact (first_at_no_head 96%N (py "``sql"%string) pre
             (inner ++ fence ++ post) Hpre).
  - exact (first_at_no_head 96%N (py "``"%string) inner post Hinner).
  - apply strip_trimmed.
Qed.

(** Whatever the reply, a body that the extractor returns is a contiguous
    part of the reply, neither begins nor ends with whitespace, and holds
    no closing marker. *)
Theorem extracted_body_shape (text body : str) :
  extract_sql_block text = Some body ->
  (exists a b, text = a ++ body ++ b)
  /\ (forall c t, body = c :: t -> isspace c = false)
  /\ (forall t c, body = t ++ [c] -> isspace c = false)
  /\ ~ occurs fence body.
Proof.
  intros H.
  pose proof (extract_sql_block_sound text) as Hs. rewrite H in Hs.
  inversion Hs as [pre inner post body' Ht Hf Hc Htr Hb | | ]; subst body'.
  destruct Htr as ((a & b & Hab & _ & _) & Hhead & Hlast).
  split; [|split; [|split]].
  - exists (pre ++ fence_sql ++ a), (b ++ fence ++ post).
    rewrite Ht. rewrite Hab at 1. now rewrite <- !app_assoc.
  - intros c t E. apply isspace_not_Whitespace. exact (Hhead c t E).
  - intros t c E. apply isspace_not_Whitespace. exact (Hlast t c E).
  - intros (x & y & Hxy).
    destruct Hc as [_ Hmin].
    assert (E : inner ++ fence ++ post
                = (a ++ x) ++ fence ++ (y ++ b ++ fence ++ post)).
    { rewrite Hab at 1. rewrite Hxy. now rewrite <- !app_assoc. }
    apply Hmin in E.
    apply (f_equal (@length N)) in Hab.
    rewrite Hxy in Hab. repeat rewrite length_app in Hab.
    rewrite length_app in E.
    change (length fence) with 3%nat in Hab. lia.
Qed.

(** Fencing a body and extracting it again gives the body back: a body
    without backquotes that is already trimmed, placed in a [```sql]
    block with any whitespace around it, after prose without backquotes
    and before anything at all, is returned as it is. *)
Theorem extract_fenced_body_round_trip (prose ws1 body ws2 post : str) :
  ~ In 96%N prose ->
  ~ In 96%N body ->
  forallb isspace ws1 = true ->
  forallb isspace ws2 = true ->
  strip body = body ->
  extract_sql_block (prose ++ fence_sql ++ (ws1 ++ body ++ ws2) ++ fence ++ post)
  = Some body.
Proof.
  intros Hp Hb H1 H2 Hs.
  apply (ResponseExtractor_functional
           (prose ++ fence_sql ++ (ws1 ++ body ++ ws2) ++ fence ++ post));
    [apply extract_sql_block_sound|].
  apply (RE_block _ prose (ws1 ++ body ++ ws2) post body); [reflexivity | | |].
  - exact (first_at_no_head 96%N (py "``sql"%string) prose
             ((ws1 ++ body ++ ws2) ++ fence ++ post) Hp).
  - apply (first_at_no_head 96%N (py "``"%string)).
    intros Hin. apply in_app_or in Hin as [Hin|Hin].
    + pose proof (proj1 (forallb_forall isspace ws1) H1 _ Hin). discriminate.
    + apply in_app_or in Hin as [Hin|Hin]; [now apply Hb|].
      pose proof (proj1 (forallb_forall isspace ws2) H2 _ Hin). discriminate.
  - rewrite <- (strip_padded ws1 body ws2 H1 H2 Hs) at 2. apply strip_trimmed.
Qed.

End ExtractorShape.

(* ================================================================== *)
(** ** More on the Registration Attempter: each way a call can end *)

Section RegistrationPaths.

Variable env : Env.

(** The first submission is accepted: one submission, no repair request,
    the handle released, and the verdict is Succeeded. *)
Theorem registration_first_attempt_succeeds (connection : Connection)
    (sql_code : str) (w : Trace) :
  connection_cursor env (count is_EvCursor w) connection = None ->
  cursor_execute env (count is_EvExecute w) sql_code = None ->
  create_stored_procedure_in_snowflake env connection sql_code None w
  = (Ok true, Some (count is_EvCursor w),
     w ++ [EvCursor connection None;
           EvExecute (count is_EvCursor w) sql_code None;
           EvCursorClose (count is_EvCursor w)]).
Proof.
  intros Hcur Hex.
  unfold create_stored_procedure_in_snowflake.
  unfold cursor_of, execute, cursor_close. unfold_py.
  rewrite Hcur. counts. rewrite Hex.
  now rewrite <- !app_assoc.
Qed.

(** A first submission that fails with anything but a programming error:
    no repair is asked for, the handle is released, and the very error
    reaches the caller. *)
Theorem registration_other_error_propagates (connection : Connection)
    (sql_code : str) (w : Trace) (e : exn) :
  connection_cursor env (count is_EvCursor w) connection = None ->
  cursor_execute env (count is_EvExecute w) sql_code = Some e ->
  is_ProgrammingError e = false ->
  create_stored_procedure_in_snowflake env connection sql_code None w
  = (Raise e, Some (count is_EvCursor w),
     w ++ [EvCursor connection None;
           EvExecute (count is_EvCursor w) sql_code (Some e);
           EvCursorClose (count is_EvCursor w)]).
Proof.
  intros Hcur Hex Hpe.
  unfold create_stored_procedure_in_snowflake.
  unfold cursor_of, execute, cursor_close. unfold_py.
  rewrite Hcur. counts. rewrite Hex, Hpe.
  now rewrite <- !app_assoc.
Qed.

(** The first submission reports a programming error and the repair call
    comes back with nothing usable (absent, or the empty string): there
    is no second submission, the handle is released, and the verdict is
    Failed. *)
Theorem registration_without_repair_fails (connection : Connection)
    (sql_code m : str) (w w2 : Trace) (o : option str) :
  connection_cursor env (count is_EvCursor w) connection = None ->
  cursor_execute env (count is_EvExecute w) sql_code = Some (ProgrammingError m) ->
  procedure_error_rtry env connection sql_code m tt
    (w ++ [EvCursor connection None;
           EvExecute (count is_EvCursor w) sql_code (Some (ProgrammingError m))])
  = (Ok o, tt, w2) ->
  truthy o = false ->
  create_stored_procedure_in_snowflake env connection sql_code None w
  = (Ok false, Some (count is_EvCursor w), w2 ++ [EvCursorClose (count is_EvCursor w)])
  /\ submissions (w2 ++ [EvCursorClose (count is_EvCursor w)])
     = submissions w ++ [sql_code].
Proof.
  intros Hcur Hex Hrep Ht.
  destruct (emits_procedure_error_rtry env connection sql_code m tt
              (w ++ [EvCursor connection None;
                     EvExecute (count is_EvCursor w) sql_code
                       (Some (ProgrammingError m))]))
    as (evs & Hevs & Fevs).
  rewrite Hrep in Hevs. cbn [snd] in Hevs.
  split.
  - unfold create_stored_procedure_in_snowflake.
    unfold cursor_of, execute, cursor_close. unfold_py.
    rewrite Hcur. counts. rewrite Hex.
    cbn [is_ProgrammingError str_exn].
    rewrite <- app_assoc. cbn [app]. rewrite Hrep.
    unfold if_truthy. destruct o as [[|ch code]|]; try discriminate; reflexivity.
  - rewrite Hevs, !submissions_app.
    assert (Hs : submissions evs = []).
    { clear - Fevs. induction evs as [|e evs IH]; [reflexivity|].
      cbn in Fevs. apply andb_true_iff in Fevs as [He Hr].
      destruct e; try discriminate; now apply IH. }
    rewrite Hs. cbn. now rewrite !app_nil_r.
Qed.

(** The first submission reports a programming error, the repair call
    returns a body that is not empty and the database accepts it: two
    submissions on one handle, one repair request that carries the
    rejected body and the database's message, and the verdict is
    Succeeded. *)
Theorem registration_repair_succeeds (connection : Connection)
    (sql_code m resp corrected : str) (w : Trace) :
  connection_cursor env (count is_EvCursor w) connection = None ->
  cursor_execute env (count is_EvExecute w) sql_code = Some (ProgrammingError m) ->
  boto3_client env (count is_EvClient w) = None ->
  converse env (count is_EvConverse w) (converse_request (repair_prompt sql_code m))
    = Ok resp ->
  extract_sql_block resp = Some corrected ->
  corrected <> [] ->
  cursor_execute env (S (count is_EvExecute w)) corrected = None ->
  create_stored_procedure_in_snowflake env connection sql_code None w
  = (Ok true, Some (count is_EvCursor w),
     w ++ [EvCursor connection None;
           EvExecute (count is_EvCursor w) sql_code (Some (ProgrammingError m));
           EvClient None;
           EvConverse (count is_EvClient w)
             (converse_request (repair_prompt sql_code m)) (Ok resp);
           EvExecute (count is_EvCursor w) corrected None;
           EvCursorClose (count is_EvCursor w)]).
Proof.
  intros Hcur H1 Hcli Hconv Hext Hne H2.
  rewrite (registration_retry_run env connection sql_code w m resp corrected
             Hcur H1 Hcli Hconv Hext Hne).
  now rewrite H2.
Qed.

(** When the statement handle cannot be acquired, whatever the error, the
    call ends with an [UnboundLocalError] on [cursor], raised by the
    [finally] block; nothing is submitted and nothing is released. *)
Theorem registration_without_handle_raises_unbound (connection : Connection)
    (sql_code : str) (w : Trace) (e : exn) :
  connection_cursor env (count is_EvCursor w) connection = Some e ->
  fst (fst (create_stored_procedure_in_snowflake env connection sql_code None w))
    = Raise (UnboundLocalError (py "cursor"%string))
  /\ count is_EvExecute
       (snd (create_stored_procedure_in_snowflake env connection sql_code None w))
     = count is_EvExecute w
  /\ count is_EvCursorClose
       (snd (create_stored_procedure_in_snowflake env connection sql_code None w))
     = count is_EvCursorClose w.
Proof.
  intros Hcur.
  unfold create_stored_procedure_in_snowflake.
  unfold cursor_of, execute, cursor_close. unfold_py.
  rewrite Hcur.
  destruct (is_ProgrammingError e).
  2:{ cbn [fst snd]. repeat split; counts; reflexivity. }
  match goal with
  | |- context [procedure_error_rtry env connection sql_code ?err tt ?w1] =>
      destruct (emits_procedure_error_rtry env connection sql_code err tt w1)
        as (evs & Hevs & Fevs);
      destruct (procedure_error_rtry env connection sql_code err tt w1)
        as [[r0 l0] w1'];
      simpl in Hevs; subst w1'
  end.
  assert (Hx : count is_EvExecute evs = 0%nat).
  { apply (count_none _ model_event); [|exact Fevs]. now intros []. }
  assert (Hc : count is_EvCursorClose evs = 0%nat).
  { apply (count_none _ model_event); [|exact Fevs]. now intros []. }
  destruct r0 as [[corrected|]|e0]; unfold if_truthy.
  - destruct (nonempty corrected); cbn [fst snd is_ProgrammingError];
      repeat split; counts; rewrite ?Hx, ?Hc; lia.
  - cbn [fst snd is_ProgrammingError]. repeat split; counts; rewrite ?Hx, ?Hc; lia.
  - cbn [fst snd is_ProgrammingError]. repeat split; counts; rewrite ?Hx, ?Hc; lia.
Qed.

(** What a call that returns a verdict has done. *)
Lemma registration_summary (connection : Connection) (sql_code : str)
    (w w' : Trace) (b : bool) (lc : option Cursor) :
  create_stored_procedure_in_snowflake env connection sql_code None w = (Ok b, lc, w') ->
  exists evs,
    w' = w ++ evs
    /\ count is_EvCursor evs = 1%nat
    /\ count is_EvCursorClose evs = 1%nat
    /\ (1 <= count is_EvExecute evs <= 2)%nat
    /\ (count is_EvConverse evs <= 1)%nat
    /\ (count is_EvExecute evs <= count is_EvConverse evs + 1)%nat
    /\ existsb accepted evs = b.
Proof.
  unfold create_stored_procedure_in_snowflake.
  unfold cursor_of, execute, cursor_close. unfold_py.
  destruct (connection_cursor env (count is_EvCursor w) connection) as [e|].
  { destruct (is_ProgrammingError e); [|discriminate].
    match goal with
    | |- context [procedure_error_rtry env connection sql_code ?err tt ?w1] =>
        destruct (procedure_error_rtry env connection sql_code err tt w1)
          as [[[[corrected|]|e0] l0] w1']
    end; unfold if_truthy; try discriminate.
    destruct (nonempty corrected); discriminate. }
  counts.
  destruct (cursor_execute env (count is_EvExecute w) sql_code) as [e|].
  2:{ intros H; injection H as <- <- <-.
      eexists. split; [rewrite <- !app_assoc; reflexivity|].
      cbn. repeat split; lia. }
  destruct (is_ProgrammingError e); [|discriminate].
  rewrite procedure_error_rtry_run. unfold requester_outcome. counts.
  destruct (boto3_client env (count is_EvClient w)) as [e0|]; [discriminate|].
  destruct (converse env (count is_EvConverse w) _) as [text|e1].
  - unfold if_truthy. destruct (extract_sql_block text) as [corrected|].
    + destruct (nonempty corrected).
      * counts.
        destruct (cursor_execute env (S (count is_EvExecute w)) corrected) as [e2|].
        -- destruct (is_ProgrammingError e2); [|discriminate].
           intros H; injection H as <- <- <-.
           eexists. split; [rewrite <- !app_assoc; reflexivity|].
           cbn. repeat split; lia.
        -- intros H; injection H as <- <- <-.
           eexists. split; [rewrite <- !app_assoc; reflexivity|].
           cbn. repeat split; lia.
      * intros H; injection H as <- <- <-.
        eexists. split; [rewrite <- !app_assoc; reflexivity|].
        cbn. repeat split; lia.
    + intros H; injection H as <- <- <-.
      eexists. split; [rewrite <- !app_assoc; reflexivity|].
      cbn. repeat split; lia.
  - destruct (is_Exception e1); [|discriminate].
    intros H; injection H as <- <- <-.
    eexists. split; [rewrite <- !app_assoc; reflexivity|].
    cbn. repeat split; lia.
Qed.

(** The verdict is Succeeded exactly when the database accepted one of the
    call's submissions, and a call never submits more than twice nor asks
    for more than one repair. *)
Theorem registration_verdict_and_bounds (connection : Connection) (sql_code : str)
    (w w' : Trace) (b : bool) (lc : option Cursor) :
  create_stored_procedure_in_snowflake env connection sql_code None w = (Ok b, lc, w') ->
  exists evs,
    w' = w ++ evs
    /\ existsb accepted evs = b
    /\ (1 <= count is_EvExecute evs <= 2)%nat
    /\ (count is_EvConverse evs <= 1)%nat.
Proof.
  intros H.
  destruct (registration_summary _ _ _ _ _ _ H)
    as (evs & Hw & _ & _ & Hx & Hv & _ & Hb).
  exists evs. auto.
Qed.

End RegistrationPaths.

(* ================================================================== *)
(** ** More on the orchestrator: idle pages, aborted batches, traffic *)

Section OrchestratorPaths.

Variable env : Env.

(** The client is created outside the [try]: when its creation fails, the
    error is raised to the caller as it is, no request is sent and no
    line is printed, in both requesters. *)
Theorem client_creation_failure_propagates (connection : Connection)
    (sql_code error : str) (w : Trace) (e : exn) :
  boto3_client env (count is_EvClient w) = Some e ->
  convert_procedure env sql_code tt w = (Raise e, tt, w ++ [EvClient (Some e)])
  /\ procedure_error_rtry env connection sql_code error tt w
     = (Raise e, tt, w ++ [EvClient (Some e)]).
Proof.
  intros H. rewrite convert_procedure_run, procedure_error_rtry_run.
  unfold requester_outcome. now rewrite H.
Qed.

(** A script whose translation request fails at the model endpoint is put
    on the Failed list; the failure is printed, nothing is archived and
    the database is not touched. *)
Theorem failed_translation_is_recorded (f : UploadedFile) (sql_code : str)
    (l : MainLocals) (w : Trace) (e : exn) :
  read_decode f = Ok sql_code ->
  boto3_client env (count is_EvClient w) = None ->
  converse env (count is_EvConverse w) (converse_request (convert_prompt sql_code))
    = Raise e ->
  is_Exception e = true ->
  loop_body env f l w
  = (Ok {| converted_code := None; registered := None |},
     set_not_created_files
       (not_created_files l ++ [os_path_basename env (name f)]) l,
     w ++ [EvClient None;
           EvConverse (count is_EvClient w)
             (converse_request (convert_prompt sql_code)) (Raise e);
           EvPrint (invoke_error_line e)]).
Proof.
  intros Hd Hc Hv He.
  apply (loop_body_untranslated env f l w _ sql_code None); [exact Hd | | reflexivity].
  unfold requester_outcome. now rewrite Hc, Hv, He.
Qed.

(** Without a click on Convert, and with a click but no upload, [main]
    renders its page (with a warning in the second case) and contacts
    neither the model nor the database, whatever the services would
    answer. *)
Theorem main_idle (files : list UploadedFile) :
  run (main env files false) = (Ok tt, page_header)
  /\ run (main env [] true)
     = (Ok tt,
        page_header
        ++ [EvSt (StWarning (py "Please upload at least one SQL file."%string))])
  /\ forallb is_EvSt (snd (run (main env files false))) = true
  /\ forallb is_EvSt (snd (run (main env [] true))) = true.
Proof. repeat split. Qed.

(** When the connection cannot be established, no script is read or
    translated: the page shows the error, and [main] itself ends with an
    [UnboundLocalError] on [snowflake_connection], raised by its
    [finally] block. *)
Theorem main_without_connection (f : UploadedFile) (fs : list UploadedFile)
    (e : exn) :
  snowflake_connect env 0 = Some e ->
  is_Exception e = true ->
  run (main env (f :: fs) true)
  = (Raise (UnboundLocalError (py "snowflake_connection"%string)),
     page_header
     ++ [EvConnect (Some e);
         EvSt (StError (py "Failed to connect to Snowflake: "%string ++ str_exn e))]).
Proof.
  intros Hc He. rewrite main_run. unfold main_outcome. now rewrite Hc, He.
Qed.

(** What an iteration that ends normally has exchanged with the services:
    one translation request, and for a translated script one statement
    handle, one or two submissions and at most one repair request. *)
Lemma loop_body_traffic (f : UploadedFile) (l l' : MainLocals) (w w' : Trace)
    (it : Iteration) :
  loop_body env f l w = (Ok it, l', w') ->
  exists evs,
    w' = w ++ evs
    /\ count is_EvCursor evs = length (archive_entry env f it)
    /\ count is_EvCursorClose evs = length (archive_entry env f it)
    /\ (length (archive_entry env f it) <= count is_EvExecute evs
        <= 2 * length (archive_entry env f it))%nat
    /\ (1 <= count is_EvConverse evs <= 1 + length (archive_entry env f it))%nat.
Proof.
  unfold loop_body, converted_files_append, created_successfully_append,
    not_created_files_append.
  unfold_py.
  destruct (read_decode f) as [sql_code|e]; [|discriminate].
  rewrite process_sql_code_run.
  assert (Hreq : forall o w1,
            requester_outcome env (convert_prompt sql_code) w = (Ok o, tt, w1) ->
            exists evs1, w1 = w ++ evs1
              /\ count is_EvCursor evs1 = 0%nat /\ count is_EvCursorClose evs1 = 0%nat
              /\ count is_EvExecute evs1 = 0%nat /\ count is_EvConverse evs1 = 1%nat).
  { unfold requester_outcome. intros o w1.
    destruct (boto3_client env (count is_EvClient w)); [discriminate|].
    destruct (converse env (count is_EvConverse w) _) as [text|e].
    - intros H; injection H as _ <-. eexists. split; [reflexivity|]. now cbn.
    - destruct (is_Exception e); [|discriminate].
      intros H; injection H as _ <-. eexists. split; [reflexivity|]. now cbn. }
  destruct (requester_outcome env (convert_prompt sql_code) w) as [[[o|e] []] w1];
    [|discriminate].
  destruct (Hreq o w1 eq_refl) as (evs1 & -> & C1 & C2 & C3 & C4). clear Hreq.
  unfold archive_entry, if_truthy.
  destruct o as [code|].
  2:{ intros H; injection H as <- <- <-. exists evs1. cbn. repeat split; lia. }
  destruct (nonempty code) eqn:Hne.
  2:{ intros H; injection H as <- <- <-. exists evs1. cbn. rewrite Hne. cbn.
      repeat split; lia. }
  cbn [snowflake_connection set_converted_files].
  destruct (snowflake_connection l) as [conn|]; [|discriminate].
  destruct (create_stored_procedure_in_snowflake env conn code None (w ++ evs1))
    as [[[b|e] lc] w2] eqn:Hr; [|discriminate].
  destruct (registration_summary env _ _ _ _ _ _ Hr)
    as (evs2 & -> & D1 & D2 & D3 & D4 & _).
  assert (Hw : (w ++ evs1) ++ evs2 = w ++ evs1 ++ evs2) by now rewrite app_assoc.
  destruct b; intros H; injection H as <- <- <-;
    exists (evs1 ++ evs2); cbn; rewrite Hne; cbn; rewrite !count_app;
    repeat split; auto; lia.
Qed.

(** The same, summed over a loop that runs to its end. *)
Lemma main_loop_traffic (files : list UploadedFile) :
  forall (l l' : MainLocals) (w w' : Trace) (its : list Iteration),
  main_loop env files l w = (Ok its, l', w') ->
  exists evs,
    w' = w ++ evs
    /\ count is_EvCursor evs = length (archive_entries env files its)
    /\ count is_EvCursorClose evs = length (archive_entries env files its)
    /\ (length (archive_entries env files its) <= count is_EvExecute evs
        <= 2 * length (archive_entries env files its))%nat
    /\ (length files <= count is_EvConverse evs
        <= length files + length (archive_entries env files its))%nat.
Proof.
  unfold main_loop.
  induction files as [|f fs IH]; intros l l' w w' its.
  - cbn. intros H; injection H as <- <- <-. exists []. cbn.
    rewrite app_nil_r. repeat split; lia.
  - cbn [for_each]. unfold bind at 1.
    destruct (loop_body env f l w) as [[[it|e] l1] w1] eqn:Hf; [|discriminate].
    unfold bind at 1.
    destruct (for_each fs (loop_body env) l1 w1) as [[[its'|e] l2] w2] eqn:Hr;
      [|discriminate].
    unfold ret. intros H; injection H as <- <- <-.
    destruct (loop_body_traffic _ _ _ _ _ _ Hf) as (e1 & -> & A1 & A2 & A3 & A4).
    destruct (IH _ _ _ _ _ Hr) as (e2 & -> & B1 & B2 & B3 & B4).
    exists (e1 ++ e2).
    unfold archive_entries in *. cbn [combine map concat length fst snd].
    rewrite !count_app, length_app.
    split; [now rewrite app_assoc|]. repeat split; lia.
Qed.

(** A script is archived at most once. *)
Lemma archive_entry_length (f : UploadedFile) (it : Iteration) :
  (length (archive_entry env f it) <= 1)%nat.
Proof.
  unfold archive_entry, if_truthy.
  destruct (converted_code it) as [code|]; [destruct (nonempty code)|]; cbn; lia.
Qed.

Lemma archive_entries_length (files : list UploadedFile) :
  forall its : list Iteration,
  (length (archive_entries env files its) <= length files)%nat.
Proof.
  unfold archive_entries.
  induction files as [|f fs IH]; intros [|it its]; cbn [combine map concat length];
    try lia.
  rewrite length_app. cbn [fst snd].
  pose proof (archive_entry_length f it). specialize (IH its). lia.
Qed.

(** In a run that shows its report, take any script [f] of the batch,
    after the scripts [before] and ahead of the scripts [after].  The run
    has one iteration for [f], whose events [evs] follow those of the
    scripts before it, and in that iteration alone: one statement handle
    is acquired and released if the script is archived and none otherwise,
    an archived script is submitted once or twice and another one never,
    the model receives one request or two, the second only for an
    archived script.  The script has at most one entry, and the archive
    of the report holds it at the script's place. *)
Theorem script_traffic_is_bounded (before after : list UploadedFile)
    (f : UploadedFile) (rep : BatchReport) :
  report_of (snd (run (main env (before ++ f :: after) true))) = Some rep ->
  exists (its0 its1 : list Iteration) (it : Iteration) (l0 l1 : MainLocals)
         (w0 evs later : Trace),
    main_loop env before loop_entry loop_start = (Ok its0, l0, w0)
    /\ loop_body env f l0 w0 = (Ok it, l1, w0 ++ evs)
    /\ snd (run (main env (before ++ f :: after) true)) = w0 ++ evs ++ later
    /\ count is_EvCursor evs = length (archive_entry env f it)
    /\ count is_EvCursorClose evs = length (archive_entry env f it)
    /\ (length (archive_entry env f it) <= count is_EvExecute evs
        <= 2 * length (archive_entry env f it))%nat
    /\ (1 <= count is_EvConverse evs <= 1 + length (archive_entry env f it))%nat
    /\ (length (archive_entry env f it) <= 1)%nat
    /\ archive rep
       = archive_entries env before its0 ++ archive_entry env f it
         ++ archive_entries env after its1.
Proof.
  intros H.
  destruct (reported_run env _ _ H) as (its & l2 & w2 & Hl & _ & Hrun & ->).
  rewrite Hrun. cbn [snd archive].
  rewrite main_loop_app in Hl.
  destruct (main_loop env before loop_entry loop_start) as [[[its0|e] l0] w0] eqn:Hb;
    [|discriminate].
  rewrite main_loop_cons in Hl.
  destruct (loop_body env f l0 w0) as [[[it|e] l1] w1] eqn:Hf; [|discriminate].
  destruct (main_loop env after l1 w1) as [[[its1|e] l3] w3] eqn:Ha; [|discriminate].
  injection Hl as _ <- <-.
  destruct (loop_body_traffic _ _ _ _ _ _ Hf) as (evs & -> & A1 & A2 & A3 & A4).
  destruct (emits_main_loop env after l1 (w0 ++ evs)) as (evs2 & Hw2 & _).
  rewrite Ha in Hw2. cbn [snd] in Hw2. subst w3.
  destruct (main_loop_lists env _ _ _ _ _ _ Hb) as (_ & _ & _ & B3 & _).
  destruct (loop_body_step env _ _ _ _ _ _ Hf) as (_ & _ & F3 & _).
  destruct (main_loop_lists env _ _ _ _ _ _ Ha) as (_ & _ & _ & A5 & _).
  cbn in B3.
  exists its0, its1, it, l0, l1, w0, evs,
    (evs2 ++ display_events l3 ++ [EvConnClose 0%nat]).
  split; [first [reflexivity | exact Hb]|]. split; [exact Hf|].
  split; [now rewrite <- !app_assoc|].
  split; [exact A1|]. split; [exact A2|]. split; [exact A3|]. split; [exact A4|].
  split; [apply archive_entry_length|].
  rewrite A5, F3, B3. now rewrite <- app_assoc.
Qed.

(** Summed over a run that shows its report: as many statement handles
    acquired, and as many released, as the archive has entries; between
    once and twice as many submissions; at least one request to the model
    per uploaded script and at most one more per entry of the archive;
    and no more entries than uploaded scripts. *)
Theorem batch_traffic_totals (files : list UploadedFile) (rep : BatchReport) :
  report_of (snd (run (main env files true))) = Some rep ->
  count is_EvCursor (snd (run (main env files true))) = length (archive rep)
  /\ count is_EvCursorClose (snd (run (main env files true))) = length (archive rep)
  /\ (length (archive rep) <= count is_EvExecute (snd (run (main env files true)))
      <= 2 * length (archive rep))%nat
  /\ (length files <= count is_EvConverse (snd (run (main env files true)))
      <= length files + length (archive rep))%nat
  /\ (length (archive rep) <= length files)%nat.
Proof.
  intros H.
  destruct (reported_run env _ _ H) as (its & l1 & w1 & Hl & _ & Hrun & ->).
  rewrite Hrun. cbn [snd archive].
  destruct (main_loop_lists env _ _ _ _ _ _ Hl) as (Hlen & _ & _ & Hcf & _).
  destruct (main_loop_traffic _ _ _ _ _ _ Hl) as (evs & -> & T1 & T2 & T3 & T4).
  cbn in Hcf. rewrite Hcf.
  pose proof (archive_entries_length files its) as Hle.
  rewrite !count_app.
  change (count is_EvCursor loop_start) with 0%nat.
  change (count is_EvCursorClose loop_start) with 0%nat.
  change (count is_EvExecute loop_start) with 0%nat.
  change (count is_EvConverse loop_start) with 0%nat.
  unfold display_events, display_lists. counts. cbn [Nat.add]. rewrite ?Nat.add_0_r.
  repeat split; lia.
Qed.

(** When the loop has run to its end and the archive writer rejects an
    entry (CPython up to 3.11 does so for a script whose reported name is
    empty), the page shows the two outcome lists and then the writer's
    error under the heading of a connection failure; no download is
    offered, although the scripts on the Succeeded list are registered;
    the connection is released and [main] returns normally. *)
Theorem rejected_entry_hides_download (files : list UploadedFile)
    (its : list Iteration) (l1 : MainLocals) (w1 : Trace) (e : exn) :
  files <> [] ->
  snowflake_connect env 0 = None ->
  main_loop env files loop_entry loop_start = (Ok its, l1, w1) ->
  first_rejected env (archive_entries env files its) = Some e ->
  is_Exception e = true ->
  run (main env files true)
  = (Ok tt,
     w1 ++ display_lists l1
     ++ [EvSt (StError (py "Failed to connect to Snowflake: "%string ++ str_exn e));
         EvConnClose 0%nat])
  /\ downloads (snd (run (main env files true))) = []
  /\ report_of (snd (run (main env files true))) = None
  /\ written (snd (run (main env files true)))
     = [created_successfully l1; not_created_files l1].
Proof.
  intros Hne Hc Hl Hrej He.
  destruct files as [|f fs]; [congruence|].
  destruct (main_loop_lists env _ _ _ _ _ _ Hl) as (_ & _ & _ & Ha & _).
  cbn [converted_files loop_entry set_snowflake_connection main_entry app] in Ha.
  rewrite main_run. unfold main_outcome. rewrite Hc, Hl, Ha, Hrej, He.
  destruct (emits_main_loop env (f :: fs) loop_entry loop_start) as (evs & Hw & Fe).
  rewrite Hl in Hw. cbn [snd] in Hw. subst w1.
  assert (Hd : downloads ((loop_start ++ evs) ++ display_lists l1
                 ++ [EvSt (StError (py "Failed to connect to Snowflake: "%string
                                    ++ str_exn e));
                     EvConnClose 0%nat]) = []).
  { rewrite !downloads_app, downloads_loop_start, (downloads_loop_events _ Fe),
      downloads_display_lists. reflexivity. }
  assert (Hwr : written ((loop_start ++ evs) ++ display_lists l1
                 ++ [EvSt (StError (py "Failed to connect to Snowflake: "%string
                                    ++ str_exn e));
                     EvConnClose 0%nat])
                = [created_successfully l1; not_created_files l1]).
  { rewrite !written_app, written_loop_start, (written_loop_events _ Fe),
      written_display_lists. reflexivity. }
  cbn [snd]. split; [reflexivity|]. split; [exact Hd|]. split; [|exact Hwr].
  unfold report_of. now rewrite Hwr, Hd.
Qed.

(** The two lists are shown only once the loop has run to its end, and
    they are then the lists of the loop, whether or not the archive is
    written afterwards. *)
Lemma written_run (files : list UploadedFile) (s f : list str) :
  written (snd (run (main env files true))) = [s; f] ->
  exists its l1 w1,
    main_loop env files loop_entry loop_start = (Ok its, l1, w1)
    /\ s = created_successfully l1 /\ f = not_created_files l1.
Proof.
  destruct files as [|g gs]; [intros H; vm_compute in H; discriminate|].
  rewrite main_run. unfold main_outcome.
  destruct (snowflake_connect env 0) as [e|].
  { destruct (is_Exception e); intros H; vm_compute in H; discriminate. }
  destruct (emits_main_loop env (g :: gs) loop_entry loop_start) as (evs & Hw & Fe).
  destruct (main_loop env (g :: gs) loop_entry loop_start) as [[[its|e] l1] w1];
    cbn [snd] in Hw; subst w1.
  - assert (K : forall tail, written tail = [] ->
                written ((loop_start ++ evs) ++ display_lists l1 ++ tail) = [s; f] ->
                exists its0 l2 w2,
                  (Ok its, l1, loop_start ++ evs) = (Ok its0, l2, w2)
                  /\ s = created_successfully l2 /\ f = not_created_files l2).
    { intros tail Ht.
      rewrite !written_app, written_loop_start, (written_loop_events _ Fe),
        written_display_lists, Ht.
      cbn. intros H; injection H as <- <-.
      exists its, l1, (loop_start ++ evs). split; [reflexivity|]. split; reflexivity. }
    destruct (first_rejected env (converted_files l1)) as [e|].
    + destruct (is_Exception e); cbn [snd]; apply K; reflexivity.
    + cbn [snd]. unfold display_events. rewrite <- app_assoc. apply K. reflexivity.
  - destruct (is_Exception e); cbn [snd];
      rewrite !written_app, written_loop_start, (written_loop_events _ Fe);
      cbn; discriminate.
Qed.

(** Whenever the page shows the two outcome lists, they split the
    reported names of the batch in input order, one entry per uploaded
    script, also in a run whose archive is then rejected and whose
    download never appears. *)
Theorem shown_lists_partition (files : list UploadedFile) (s f : list str) :
  written (snd (run (main env files true))) = [s; f] ->
  (exists verdicts : list bool,
     length verdicts = length files
     /\ s = select verdicts (names env files)
     /\ f = select (map negb verdicts) (names env files))
  /\ Permutation (s ++ f) (names env files).
Proof.
  intros H.
  destruct (written_run _ _ _ H) as (its & l1 & w1 & Hl & -> & ->).
  destruct (main_loop_lists env _ _ _ _ _ _ Hl) as (Hlen & Hc & Hn & _).
  cbn in Hc, Hn. rewrite <- (map_map verdict negb) in Hn.
  assert (Hk : length (map verdict its) = length (names env files)).
  { unfold names. now rewrite !length_map. }
  split.
  - exists (map verdict its). rewrite length_map. auto.
  - rewrite Hc, Hn. now apply select_partition.
Qed.



End OrchestratorPaths.

Section AbortedBatch.

Variable env : Env.
Hypothesis coop : Cooperative env.

(** The loop stops at the first file that does not decode. *)
Lemma main_loop_stops_at_undecodable (before after : list UploadedFile)
    (f : UploadedFile) (e : exn) :
  Forall decodes before ->
  read_decode f = Raise e ->
  forall (l : MainLocals) (w : Trace) (conn : Connection),
  snowflake_connection l = Some conn ->
  exists l1 w1, main_loop env (before ++ f :: after) l w = (Raise e, l1, w1).
Proof.
  intros Hb Hd. unfold main_loop.
  induction Hb as [|g gs Hg Hgs IH]; intros l w conn Hc; cbn [app for_each].
  - unfold bind at 1. unfold loop_body at 1. unfold_py. rewrite Hd. eauto.
  - unfold bind at 1.
    pose proof (loop_body_keeps_connection env g l w) as Hk.
    destruct (loop_body_returns env coop g l w conn Hg Hc) as (it & l1 & w1 & Hr).
    rewrite Hr in Hk |- *. cbn in Hk.
    unfold bind at 1.
    destruct (IH l1 w1 conn) as (l2 & w2 & ->); [congruence|]. eauto.
Qed.

(** One uploaded file that is not valid UTF-8 costs the whole batch its
    report: the loop stops there, the page shows only the error (under
    the heading of a connection failure), nothing is offered for
    download, the connection is released, and [main] returns normally. *)
Theorem undecodable_file_aborts_batch (before after : list UploadedFile)
    (f : UploadedFile) (e : exn) :
  Forall decodes before ->
  read_decode f = Raise e ->
  is_Exception e = true ->
  fst (run (main env (before ++ f :: after) true)) = Ok tt
  /\ report_of (snd (run (main env (before ++ f :: after) true))) = None
  /\ exists w1,
       snd (run (main env (before ++ f :: after) true))
       = w1 ++ [EvSt (StError (py "Failed to connect to Snowflake: "%string
                               ++ str_exn e));
                EvConnClose 0%nat]
       /\ written w1 = [] /\ downloads w1 = [].
Proof.
  intros Hb Hd He.
  destruct (main_loop_stops_at_undecodable before after f e Hb Hd
              loop_entry loop_start 0%nat eq_refl) as (l1 & w1 & Hl).
  destruct (emits_main_loop env (before ++ f :: after) loop_entry loop_start)
    as (evs & Hw & Fe).
  rewrite Hl in Hw. cbn [snd] in Hw. subst w1.
  assert (Hrun : run (main env (before ++ f :: after) true)
                 = main_outcome env (before ++ f :: after)).
  { destruct before; apply main_run. }
  rewrite Hrun. unfold main_outcome.
  rewrite (coop_connect env coop), Hl, He. cbn [fst snd].
  assert (Hwr : written (loop_start ++ evs) = []).
  { now rewrite written_app, written_loop_start, (written_loop_events _ Fe). }
  assert (Hdl : downloads (loop_start ++ evs) = []).
  { now rewrite downloads_app, downloads_loop_start, (downloads_loop_events _ Fe). }
  split; [reflexivity|split].
  - unfold report_of. now rewrite written_app, Hwr.
  - exists (loop_start ++ evs). auto.
Qed.

End AbortedBatch.

(* ================================================================== *)
(** ** The properties on sample runs *)

Module Runs.
Import Samples.

Example run_two_scripts :
  report_of (snd (run (main env_second_absent [file_a; file_b] true)))
  = Some {| succeeded := [py "a.sql"%string];
            failed := [py "b.sql"%string];
            archive := [(py "a.sql"%string, translated)] |}.
Proof. reflexivity. Qed.

Example run_first_attempt_succeeds :
  create_stored_procedure_in_snowflake env_fine 0%nat translated None []
  = (Ok true, Some 0%nat,
     [EvCursor 0%nat None; EvExecute 0%nat translated None; EvCursorClose 0%nat]).
Proof. reflexivity. Qed.

Example run_no_upload :
  run (main env_fine [] true)
  = (Ok tt,
     page_header ++ [EvSt (StWarning (py "Please upload at least one SQL file."%string))]).
Proof. reflexivity. Qed.

(** *** C1 *)



(** *** C2 *)

(** The repair call returns a body, the empty one: one submission only. *)
Lemma registration_retries_once_counterexample :
  (forall k stmt, cursor_execute env_blank_repair k stmt = Some syntax_error)
  /\ fst (fst (procedure_error_rtry env_blank_repair 0%nat translated
                 (str_exn syntax_error) tt
                 [EvCursor 0%nat None; EvExecute 0%nat translated (Some syntax_error)]))
     = Ok (Some [])
  /\ fst (fst (create_stored_procedure_in_snowflake env_blank_repair 0%nat
                 translated None []))
     = Ok false
  /\ count is_EvExecute
       (snd (create_stored_procedure_in_snowflake env_blank_repair 0%nat
               translated None []))
     = 1%nat.
Proof. repeat split. Qed.

Lemma registration_retries_once_witness :
  fst (fst (create_stored_procedure_in_snowflake env_always_rejected 0%nat
              translated None []))
    = Ok false
  /\ count is_EvExecute
       (snd (create_stored_procedure_in_snowflake env_always_rejected 0%nat
               translated None []))
     = (count is_EvExecute [] + 2)%nat
  /\ count is_EvConverse
       (snd (create_stored_procedure_in_snowflake env_always_rejected 0%nat
               translated None []))
     = (count is_EvConverse [] + 1)%nat
  /\ submissions
       (snd (create_stored_procedure_in_snowflake env_always_rejected 0%nat
               translated None []))
     = submissions [] ++ [translated; repaired].
Proof.
  apply (registration_retries_once env_always_rejected 0%nat translated []
           (reply repaired) repaired).
  - reflexivity.
  - intros k stmt. eexists. reflexivity.
  - reflexivity.
  - intros m _. reflexivity.
  - reflexivity.
  - discriminate.
Defined.

(** *** C3 *)

(** The Translation Requester returns a body, the empty one: the script
    has no archive entry. *)
Lemma archive_counterexample :
  fst (fst (process_sql_code env_blank_translation
              (py "CREATE PROCEDURE a AS SELECT 1"%string) tt loop_start))
    = Ok (Some [])
  /\ report_of (snd (run (main env_blank_translation [file_a] true)))
     = Some {| succeeded := []; failed := [py "a.sql"%string]; archive := [] |}.
Proof. split; reflexivity. Qed.

Lemma archive_holds_translations_witness :
  exists rep,
    report_of (snd (run (main env_second_absent [file_a; file_b] true))) = Some rep
    /\ exists its : list Iteration,
         length its = length [file_a; file_b]
         /\ translated_by env_second_absent [file_a; file_b] its loop_entry loop_start
         /\ archive rep
            = concat (map (fun p =>
                             match converted_code (snd p) with
                             | Some (c :: code) =>
                                 [(os_path_basename env_second_absent (name (fst p)),
                                   c :: code)]
                             | _ => []
                             end)
                          (combine [file_a; file_b] its)).
Proof.
  eexists. split; [reflexivity|].
  apply (archive_holds_translations env_second_absent [file_a; file_b]).
  reflexivity.
Defined.

(** *** C5 *)

(** The retry is submitted on the handle of the first attempt, which has
    not been released in between. *)
Lemma statement_handle_counterexample :
  snd (create_stored_procedure_in_snowflake env_repair_works 0%nat translated None [])
  = [EvCursor 0%nat None;
     EvExecute 0%nat translated (Some syntax_error);
     EvClient None;
     EvConverse 0%nat
       (converse_request (repair_prompt translated (str_exn syntax_error)))
       (Ok (reply translated));
     EvExecute 0%nat translated None;
     EvCursorClose 0%nat]
  /\ released_after_each_attempt false
       (snd (create_stored_procedure_in_snowflake env_repair_works 0%nat
               translated None []))
     = false.
Proof. split; reflexivity. Qed.

Lemma statement_handle_released_once_witness :
  exists mid,
    snd (create_stored_procedure_in_snowflake env_repair_works 0%nat translated None [])
    = [] ++ EvCursor 0%nat None :: mid ++ [EvCursorClose (count is_EvCursor [])]
    /\ forallb (within_attempt (count is_EvCursor [])) mid = true.
Proof.
  apply (statement_handle_released_once env_repair_works 0%nat translated []).
  reflexivity.
Defined.

(** *** C6 *)

(** The connection cannot be established: nothing is released, and the
    [finally] block of [main] fails on the unbound local. *)
Lemma connection_counterexample :
  count is_EvConnClose (snd (run (main env_no_connection [file_a] true))) = 0%nat
  /\ filter connection_event (snd (run (main env_no_connection [file_a] true)))
     = [EvConnect (Some (OtherException (py "could not connect"%string)))]
  /\ fst (run (main env_no_connection [file_a] true))
     = Raise (UnboundLocalError (py "snowflake_connection"%string)).
Proof. repeat split. Qed.

Lemma connection_acquired_and_released_once_witness :
  filter connection_event (snd (run (main env_session_lost [file_a; file_b] true)))
    = [EvConnect None; EvConnClose 0%nat]
  /\ exists before,
       snd (run (main env_session_lost [file_a; file_b] true))
       = before ++ [EvConnClose 0%nat].
Proof.
  apply (connection_acquired_and_released_once env_session_lost file_a [file_b]).
  reflexivity.
Defined.

(** *** C7 *)

Lemma invocation_failure_is_absent_witness :
  convert_procedure env_model_down translated tt []
  = (Ok None, tt,
     [] ++ [EvClient None;
            EvConverse (count is_EvClient [])
              (converse_request (convert_prompt translated)) (Raise throttled);
            EvPrint (py "ERROR: Can't invoke '"%string ++ model_id
                     ++ py "'. Reason: "%string ++ str_exn throttled)])
  /\ procedure_error_rtry env_model_down 0%nat translated (str_exn syntax_error) tt []
  = (Ok None, tt,
     [] ++ [EvClient None;
            EvConverse (count is_EvClient [])
              (converse_request (repair_prompt translated (str_exn syntax_error)))
              (Raise throttled);
            EvPrint (py "ERROR: Can't invoke '"%string ++ model_id
                     ++ py "'. Reason: "%string ++ str_exn throttled)])
  /\ convert_procedure env_no_block translated tt []
  = (Ok None, tt,
     [] ++ [EvClient None;
            EvConverse (count is_EvClient [])
              (converse_request (convert_prompt translated))
              (Ok reply_without_block)])
  /\ procedure_error_rtry env_no_block 0%nat translated (str_exn syntax_error) tt []
  = (Ok None, tt,
     [] ++ [EvClient None;
            EvConverse (count is_EvClient [])
              (converse_request (repair_prompt translated (str_exn syntax_error)))
              (Ok reply_without_block)]).
Proof.
  split; [|split; [|split]].
  - apply (proj1 invocation_failure_is_absent env_model_down translated []
             throttled); reflexivity.
  - apply (proj1 (proj2 invocation_failure_is_absent) env_model_down 0%nat
             translated (str_exn syntax_error) [] throttled); reflexivity.
  - apply (proj1 (proj2 (proj2 invocation_failure_is_absent)) env_no_block
             translated [] reply_without_block); reflexivity.
  - apply (proj2 (proj2 (proj2 invocation_failure_is_absent)) env_no_block 0%nat
             translated (str_exn syntax_error) [] reply_without_block); reflexivity.
Defined.

(** *** C8 *)

(** The batch of three scripts: the second is the repaired one. *)
Example run_second_repaired :
  report_of (snd (run (main env_second_repaired [file_b; file_a; file_a_again] true)))
  = Some {| succeeded := [py "b.sql"%string; py "a.sql"%string];
            failed := [py "a.sql"%string];
            archive := [(py "b.sql"%string, translated);
                        (py "a.sql"%string, translated)] |}
  /\ submissions
       (snd (run (main env_second_repaired [file_b; file_a; file_a_again] true)))
     = [translated; translated; repaired].
Proof. split; reflexivity. Qed.


(** *** C9 *)

Lemma whitespace_only_block_is_failure_witness :
  extract_sql_block ([] ++ fence_sql ++ (py "  "%string ++ nl) ++ fence ++ []) = Some []
  /\ loop_body env_blank_translation file_a loop_entry loop_start
     = (Ok {| converted_code := Some []; registered := None |},
        set_not_created_files
          (not_created_files loop_entry
           ++ [os_path_basename env_blank_translation (name file_a)]) loop_entry,
        loop_start
        ++ [EvClient None;
            EvConverse (count is_EvClient loop_start)
              (converse_request
                 (convert_prompt (py "CREATE PROCEDURE a AS SELECT 1"%string)))
              (Ok ([] ++ fence_sql ++ (py "  "%string ++ nl) ++ fence ++ []))])
  /\ loop_body env_no_block file_a loop_entry loop_start
     = (Ok {| converted_code := None; registered := None |},
        set_not_created_files
          (not_created_files loop_entry
           ++ [os_path_basename env_blank_translation (name file_a)]) loop_entry,
        loop_start
        ++ [EvClient None;
            EvConverse (count is_EvClient loop_start)
              (converse_request
                 (convert_prompt (py "CREATE PROCEDURE a AS SELECT 1"%string)))
              (Ok reply_without_block)]).
Proof.
  apply (whitespace_only_block_is_failure env_blank_translation env_no_block file_a
           loop_entry loop_start (py "CREATE PROCEDURE a AS SELECT 1"%string)
           [] (py "  "%string ++ nl) [] reply_without_block);
    try reflexivity.
  split.
  - now exists (py "  "%string ++ nl ++ fence).
  - intros a' b' _. cbn. lia.
Defined.

End Runs.

(* ================================================================== *)
(** ** The further properties on sample runs *)

Module MoreRuns.
Import Samples MoreSamples.

Lemma env_fine_cooperative : Cooperative env_fine.
Proof. constructor; intros; try reflexivity; discriminate. Defined.


Lemma extract_block_without_backquotes_witness :
  exists body,
    extract_sql_block
      ((py "Here is the procedure:"%string ++ nl) ++ fence_sql
       ++ (nl ++ translated ++ nl) ++ fence ++ py " Let me know."%string)
    = Some body
    /\ Trimmed (nl ++ translated ++ nl) body.
Proof.
  apply (extract_block_without_backquotes
           (py "Here is the procedure:"%string ++ nl)
           (nl ++ translated ++ nl) (py " Let me know."%string));
    intros H; vm_compute in H; intuition discriminate.
Defined.

Lemma extract_fenced_body_round_trip_witness :
  extract_sql_block
    (py "Here is the procedure:"%string ++ fence_sql
     ++ (nl ++ translated ++ (py "  "%string ++ nl)) ++ fence
     ++ py " and a second block: ```sql SELECT 1 ```"%string)
  = Some translated.
Proof.
  apply (extract_fenced_body_round_trip (py "Here is the procedure:"%string)
           nl translated (py "  "%string ++ nl)
           (py " and a second block: ```sql SELECT 1 ```"%string));
    try reflexivity;
    intros H; vm_compute in H; intuition discriminate.
Defined.

Lemma extracted_body_shape_witness :
  (exists a b, reply translated = a ++ translated ++ b)
  /\ (forall c t, translated = c :: t -> isspace c = false)
  /\ (forall t c, translated = t ++ [c] -> isspace c = false)
  /\ ~ occurs fence translated.
Proof.
  apply (extracted_body_shape (reply translated) translated). reflexivity.
Defined.

Lemma registration_first_attempt_succeeds_witness :
  create_stored_procedure_in_snowflake env_fine 0%nat translated None []
  = (Ok true, Some (count is_EvCursor []),
     [] ++ [EvCursor 0%nat None;
            EvExecute (count is_EvCursor []) translated None;
            EvCursorClose (count is_EvCursor [])]).
Proof.
  apply (registration_first_attempt_succeeds env_fine 0%nat translated []);
    reflexivity.
Defined.

Lemma registration_repair_succeeds_witness :
  create_stored_procedure_in_snowflake env_repair_works 0%nat translated None []
  = (Ok true, Some (count is_EvCursor []),
     [] ++ [EvCursor 0%nat None;
            EvExecute (count is_EvCursor []) translated
              (Some (ProgrammingError (py "syntax error line 1"%string)));
            EvClient None;
            EvConverse (count is_EvClient [])
              (converse_request
                 (repair_prompt translated (py "syntax error line 1"%string)))
              (Ok (reply translated));
            EvExecute (count is_EvCursor []) translated None;
            EvCursorClose (count is_EvCursor [])]).
Proof.
  apply (registration_repair_succeeds env_repair_works 0%nat translated
           (py "syntax error line 1"%string) (reply translated) translated []);
    try reflexivity; discriminate.
Defined.

Lemma registration_other_error_propagates_witness :
  create_stored_procedure_in_snowflake env_session_lost 0%nat translated None []
  = (Raise (OtherException (py "connection lost"%string)),
     Some (count is_EvCursor []),
     [] ++ [EvCursor 0%nat None;
            EvExecute (count is_EvCursor []) translated
              (Some (OtherException (py "connection lost"%string)));
            EvCursorClose (count is_EvCursor [])]).
Proof.
  apply (registration_other_error_propagates env_session_lost 0%nat translated []);
    reflexivity.
Defined.

Lemma registration_without_repair_fails_witness :
  create_stored_procedure_in_snowflake env_blank_repair 0%nat translated None []
  = (Ok false, Some (count is_EvCursor []),
     [EvCursor 0%nat None;
      EvExecute 0%nat translated (Some syntax_error);
      EvClient None;
      EvConverse 0%nat
        (converse_request (repair_prompt translated (py "syntax error line 1"%string)))
        (Ok reply_with_blank_block)]
     ++ [EvCursorClose (count is_EvCursor [])])
  /\ submissions
       ([EvCursor 0%nat None;
         EvExecute 0%nat translated (Some syntax_error);
         EvClient None;
         EvConverse 0%nat
           (converse_request (repair_prompt translated (py "syntax error line 1"%string)))
           (Ok reply_with_blank_block)]
        ++ [EvCursorClose (count is_EvCursor [])])
     = submissions [] ++ [translated].
Proof.
  apply (registration_without_repair_fails env_blank_repair 0%nat translated
           (py "syntax error line 1"%string) [] _ (Some []));
    reflexivity.
Defined.

Lemma registration_without_handle_raises_unbound_witness :
  fst (fst (create_stored_procedure_in_snowflake env_no_cursor 0%nat translated None []))
    = Raise (UnboundLocalError (py "cursor"%string))
  /\ count is_EvExecute
       (snd (create_stored_procedure_in_snowflake env_no_cursor 0%nat translated None []))
     = count is_EvExecute []
  /\ count is_EvCursorClose
       (snd (create_stored_procedure_in_snowflake env_no_cursor 0%nat translated None []))
     = count is_EvCursorClose [].
Proof.
  apply (registration_without_handle_raises_unbound env_no_cursor 0%nat translated []
           (OtherException (py "Connection is closed"%string))).
  reflexivity.
Defined.

Lemma registration_verdict_and_bounds_witness :
  exists evs,
    snd (create_stored_procedure_in_snowflake env_repair_works 0%nat translated None [])
    = [] ++ evs
    /\ existsb accepted evs = true
    /\ (1 <= count is_EvExecute evs <= 2)%nat
    /\ (count is_EvConverse evs <= 1)%nat.
Proof.
  eapply (registration_verdict_and_bounds env_repair_works 0%nat translated []).
  reflexivity.
Defined.

Lemma client_creation_failure_propagates_witness :
  convert_procedure env_no_client translated tt []
  = (Raise (OtherException (py "Unknown service: 'bedrock-runtime'"%string)), tt,
     [] ++ [EvClient (Some (OtherException
                              (py "Unknown service: 'bedrock-runtime'"%string)))])
  /\ procedure_error_rtry env_no_client 0%nat translated (str_exn syntax_error) tt []
     = (Raise (OtherException (py "Unknown service: 'bedrock-runtime'"%string)), tt,
        [] ++ [EvClient (Some (OtherException
                                 (py "Unknown service: 'bedrock-runtime'"%string)))]).
Proof.
  apply (client_creation_failure_propagates env_no_client 0%nat translated
           (str_exn syntax_error) []).
  reflexivity.
Defined.

Lemma failed_translation_is_recorded_witness :
  loop_body env_model_down file_a loop_entry loop_start
  = (Ok {| converted_code := None; registered := None |},
     set_not_created_files
       (not_created_files loop_entry ++ [os_path_basename env_model_down (name file_a)])
       loop_entry,
     loop_start
     ++ [EvClient None;
         EvConverse (count is_EvClient loop_start)
           (converse_request
              (convert_prompt (py "CREATE PROCEDURE a AS SELECT 1"%string)))
           (Raise throttled);
         EvPrint (invoke_error_line throttled)]).
Proof.
  apply (failed_translation_is_recorded env_model_down file_a
           (py "CREATE PROCEDURE a AS SELECT 1"%string) loop_entry loop_start throttled);
    reflexivity.
Defined.

Lemma main_without_connection_witness :
  run (main env_no_connection [file_a; file_b] true)
  = (Raise (UnboundLocalError (py "snowflake_connection"%string)),
     page_header
     ++ [EvConnect (Some (OtherException (py "could not connect"%string)));
         EvSt (StError (py "Failed to connect to Snowflake: "%string
                        ++ str_exn (OtherException (py "could not connect"%string))))]).
Proof.
  apply (main_without_connection env_no_connection file_a [file_b]); reflexivity.
Defined.

Lemma script_traffic_is_bounded_witness :
  exists (its0 its1 : list Iteration) (it : Iteration) (l0 l1 : MainLocals)
         (w0 evs later : Trace),
    main_loop env_second_repaired [file_b] loop_entry loop_start = (Ok its0, l0, w0)
    /\ loop_body env_second_repaired file_a l0 w0 = (Ok it, l1, w0 ++ evs)
    /\ snd (run (main env_second_repaired ([file_b] ++ file_a :: [file_a_again]) true))
       = w0 ++ evs ++ later
    /\ count is_EvCursor evs = length (archive_entry env_second_repaired file_a it)
    /\ count is_EvCursorClose evs
       = length (archive_entry env_second_repaired file_a it)
    /\ (length (archive_entry env_second_repaired file_a it)
        <= count is_EvExecute evs
        <= 2 * length (archive_entry env_second_repaired file_a it))%nat
    /\ (1 <= count is_EvConverse evs
        <= 1 + length (archive_entry env_second_repaired file_a it))%nat
    /\ (length (archive_entry env_second_repaired file_a it) <= 1)%nat
    /\ [(py "b.sql"%string, translated); (py "a.sql"%string, translated)]
       = archive_entries env_second_repaired [file_b] its0
         ++ archive_entry env_second_repaired file_a it
         ++ archive_entries env_second_repaired [file_a_again] its1.
Proof.
  apply (script_traffic_is_bounded env_second_repaired [file_b] [file_a_again] file_a
           {| succeeded := [py "b.sql"%string; py "a.sql"%string];
              failed := [py "a.sql"%string];
              archive := [(py "b.sql"%string, translated);
                          (py "a.sql"%string, translated)] |}).
  reflexivity.
Defined.

Lemma batch_traffic_totals_witness :
  exists rep,
    report_of (snd (run (main env_second_absent [file_a; file_b] true))) = Some rep
    /\ (count is_EvCursor (snd (run (main env_second_absent [file_a; file_b] true)))
        = length (archive rep)
        /\ count is_EvCursorClose
             (snd (run (main env_second_absent [file_a; file_b] true)))
           = length (archive rep)
        /\ (length (archive rep)
            <= count is_EvExecute
                 (snd (run (main env_second_absent [file_a; file_b] true)))
            <= 2 * length (archive rep))%nat
        /\ (length [file_a; file_b]
            <= count is_EvConverse
                 (snd (run (main env_second_absent [file_a; file_b] true)))
            <= length [file_a; file_b] + length (archive rep))%nat
        /\ (length (archive rep) <= length [file_a; file_b])%nat).
Proof.
  eexists. split; [reflexivity|].
  apply (batch_traffic_totals env_second_absent [file_a; file_b]).
  reflexivity.
Defined.

(** A script named [procs/] is translated and registered, and then costs
    the batch its download. *)
Lemma rejected_entry_hides_download_witness :
  run (main env_fine [file_a; file_slash] true)
  = (Ok tt,
     snd (main_loop env_fine [file_a; file_slash] loop_entry loop_start)
     ++ display_lists
          (snd (fst (main_loop env_fine [file_a; file_slash] loop_entry loop_start)))
     ++ [EvSt (StError (py "Failed to connect to Snowflake: "%string
                        ++ str_exn (OtherException
                                      (py "string index out of range"%string))));
         EvConnClose 0%nat])
  /\ downloads (snd (run (main env_fine [file_a; file_slash] true))) = []
  /\ report_of (snd (run (main env_fine [file_a; file_slash] true))) = None
  /\ written (snd (run (main env_fine [file_a; file_slash] true)))
     = [created_successfully
          (snd (fst (main_loop env_fine [file_a; file_slash] loop_entry loop_start)));
        not_created_files
          (snd (fst (main_loop env_fine [file_a; file_slash] loop_entry loop_start)))].
Proof.
  apply (rejected_entry_hides_download env_fine [file_a; file_slash]
           [{| converted_code := Some translated; registered := Some true |};
            {| converted_code := Some translated; registered := Some true |}]).
  - discriminate.
  - reflexivity.
  - reflexivity.
  - reflexivity.
  - reflexivity.
Defined.

Example run_with_rejected_entry :
  written (snd (run (main env_fine [file_a; file_slash] true)))
  = [[py "a.sql"%string; []]; []].
Proof. reflexivity. Qed.

Lemma shown_lists_partition_witness :
  (exists verdicts : list bool,
     length verdicts = length [file_a; file_slash]
     /\ [py "a.sql"%string; []] = select verdicts (names env_fine [file_a; file_slash])
     /\ [] = select (map negb verdicts) (names env_fine [file_a; file_slash]))
  /\ Permutation ([py "a.sql"%string; []] ++ []) (names env_fine [file_a; file_slash]).
Proof.
  apply (shown_lists_partition env_fine [file_a; file_slash]).
  reflexivity.
Defined.


Lemma undecodable_file_aborts_batch_witness :
  fst (run (main env_fine ([file_a] ++ file_utf16 :: [file_b]) true)) = Ok tt
  /\ report_of (snd (run (main env_fine ([file_a] ++ file_utf16 :: [file_b]) true)))
     = None
  /\ exists w1,
       snd (run (main env_fine ([file_a] ++ file_utf16 :: [file_b]) true))
       = w1 ++ [EvSt (StError
                        (py "Failed to connect to Snowflake: "%string
                         ++ str_exn
                              (UnicodeDecodeError
                                 (py "'utf-8' codec can't decode byte 0xff in position 0: invalid start byte"%string))));
                EvConnClose 0%nat]
       /\ written w1 = [] /\ downloads w1 = [].
Proof.
  apply (undecodable_file_aborts_batch env_fine env_fine_cooperative
           [file_a] [file_b] file_utf16).
  - constructor; [|constructor]. eexists. reflexivity.
  - reflexivity.
  - reflexivity.
Defined.


End MoreRuns.
